(** * PyMammotion: map-fragment store and dual-transport device orchestrator

    A shallow embedding of
      - [pymammotion/data/model/hash_list.py]        (module [HashListModel])
      - [pymammotion/mammotion/devices/mammotion.py] (module [MammotionModel])
    Python dictionaries are finite maps, Python exceptions are the [Raise]
    branch of a small error monad, calls into the two transports and into
    the network are recorded as events. *)

From Stdlib Require Import ZArith List String Bool Lia.
From stdpp Require Import base option gmap strings list.

Open Scope string_scope.
Open Scope Z_scope.

(** ** Python exceptions and the error monad *)

Inductive py_exception :=
| LookupError
| KeyError
| IndexError
| AttributeError
| LoginError
| ConnectionError.

(** [issubclass(e, LookupError)]: the builtin hierarchy puts [KeyError] and
    [IndexError] under [LookupError]; [AttributeError] is not below it. *)
Definition is_LookupError (e : py_exception) : bool :=
  match e with
  | LookupError | KeyError | IndexError => true
  | AttributeError | LoginError | ConnectionError => false
  end.

Inductive py_result (A : Type) :=
| Ok (a : A)
| Raise (e : py_exception).
Arguments Ok {A} a.
Arguments Raise {A} e.

Definition py_bind {A B} (r : py_result A) (k : A -> py_result B) : py_result B :=
  match r with
  | Ok a => k a
  | Raise e => Raise e
  end.

#[global] Instance py_result_ret : MRet py_result := fun A a => Ok a.
#[global] Instance py_result_bind : MBind py_result :=
  fun A B k r => py_bind r k.

(** [d[k]]: subscription of a dict, [KeyError] when the key is absent. *)
Definition py_getitem {K V} `{Countable K} (d : gmap K V) (k : K) : py_result V :=
  match d !! k with
  | Some v => Ok v
  | None => Raise KeyError
  end.

(** ** hash_list.py *)

Module HashListModel.

(** Modelled from the spec: the message class [NavGetCommDataAck] comes from
    [pymammotion.proto.mctrl_nav], a module that is not embedded here.
    A fragment carries a category ([type]), a content [hash], the declared
    [total_frame], and its content (the frame number and the payload); two
    fragments are equal when all their fields are. *)
Record NavGetCommDataAck := {
  type : Z;
  hash : Z;
  total_frame : Z;
  current_frame : Z;
  data_couple : list Z
}.

#[global] Instance NavGetCommDataAck_eq_dec : EqDecision NavGetCommDataAck.
Proof. solve_decision. Defined.

Record FrameList := {
  fl_total_frame : Z;
  data : list NavGetCommDataAck
}.

#[global] Instance FrameList_eq_dec : EqDecision FrameList.
Proof. solve_decision. Defined.

Record HashList := {
  area : gmap Z FrameList;      (* type 0 *)
  path : gmap Z FrameList;      (* type 2 *)
  obstacle : gmap Z FrameList   (* type 1 *)
}.

(** The values that meet in the membership test of [_add_hash_data]: the
    comprehension [[item.hash for item in ...]] is a list of integers, the
    value looked for is a message. *)
Inductive py_value :=
| PyInt (z : Z)
| PyMsg (m : NavGetCommDataAck).

(** [x == y]: integers compare by value, messages field by field, and a
    message is never equal to an integer (both [__eq__] return
    [NotImplemented], and the objects are not identical). *)
Definition py_eq (x y : py_value) : bool :=
  match x, y with
  | PyInt a, PyInt b => bool_decide (a = b)
  | PyMsg a, PyMsg b => bool_decide (a = b)
  | _, _ => false
  end.

(** [x in l] *)
Definition py_in (x : py_value) (l : list py_value) : bool :=
  existsb (py_eq x) l.

Definition _add_hash_data (hash_dict : gmap Z FrameList) (hash_data : NavGetCommDataAck)
  : py_result (gmap Z FrameList) :=
  let hash_dict :=
    match hash_dict !! hash hash_data with
    | None =>
        <[hash hash_data :=
            {| fl_total_frame := total_frame hash_data; data := [hash_data] |}]> hash_dict
    | Some _ => hash_dict
    end in
  fl ← py_getitem hash_dict (hash hash_data);
  let hash_values := map (fun item => PyInt (hash item)) (data fl) in
  if negb (py_in (PyMsg hash_data) hash_values) then
    fl ← py_getitem hash_dict (hash hash_data);
    Ok (<[hash hash_data :=
            {| fl_total_frame := fl_total_frame fl; data := data fl ++ [hash_data] |}]> hash_dict)
  else Ok hash_dict.

Definition update (self : HashList) (hash_data : NavGetCommDataAck) : py_result HashList :=
  self ←
    (if bool_decide (type hash_data = 0) then
       d ← _add_hash_data (area self) hash_data;
       Ok {| area := d; path := path self; obstacle := obstacle self |}
     else Ok self);
  self ←
    (if bool_decide (type hash_data = 1) then
       d ← _add_hash_data (obstacle self) hash_data;
       Ok {| area := area self; path := path self; obstacle := d |}
     else Ok self);
  if bool_decide (type hash_data = 2) then
    d ← _add_hash_data (path self) hash_data;
    Ok {| area := area self; path := d; obstacle := obstacle self |}
  else Ok self.

(** Ingesting a sequence of fragments, first to last. *)
Fixpoint update_all (self : HashList) (l : list NavGetCommDataAck) : py_result HashList :=
  match l with
  | [] => Ok self
  | f :: l => self ← update self f; update_all self l
  end.

Definition empty_HashList : HashList :=
  {| area := ∅; path := ∅; obstacle := ∅ |}.

(** The mapping of a category, as [update] selects it. *)
Definition mapping (c : Z) (self : HashList) : gmap Z FrameList :=
  if bool_decide (c = 0) then area self
  else if bool_decide (c = 1) then obstacle self
  else if bool_decide (c = 2) then path self
  else ∅.

Definition recognized (c : Z) : bool :=
  bool_decide (c = 0) || bool_decide (c = 1) || bool_decide (c = 2).

(** The fragments stored for hash [h] in category [c], when the ingestion
    returned. *)
Definition frames (c h : Z) (r : py_result HashList) : option (list NavGetCommDataAck) :=
  match r with
  | Ok hl => data <$> mapping c hl !! h
  | Raise _ => None
  end.

(** The FrameSet [_add_hash_data] leaves under the fragment's hash. *)
Definition appended (d : gmap Z FrameList) (f : NavGetCommDataAck) : FrameList :=
  match d !! hash f with
  | None => {| fl_total_frame := total_frame f; data := [f; f] |}
  | Some fl => {| fl_total_frame := fl_total_frame fl; data := data fl ++ [f] |}
  end.

(** Every stored fragment sits in the FrameSet of its own category and
    hash. *)
Definition isolated (hl : HashList) : Prop :=
  forall c h fl x, mapping c hl !! h = Some fl -> x ∈ data fl -> type x = c /\ hash x = h.

(** The fragments of the scenario: hash 1 ([H1]), three frames, category
    area; [fragA] and [fragB] differ in content. [fragC] follows them with
    another [total_frame]. *)
Definition fragA : NavGetCommDataAck :=
  {| type := 0; hash := 1; total_frame := 3; current_frame := 1; data_couple := [10] |}.
Definition fragB : NavGetCommDataAck :=
  {| type := 0; hash := 1; total_frame := 3; current_frame := 2; data_couple := [20] |}.
Definition fragC : NavGetCommDataAck :=
  {| type := 0; hash := 1; total_frame := 7; current_frame := 3; data_couple := [30] |}.

(** A fragment of a category that is not recognized. *)
Definition fragX : NavGetCommDataAck :=
  {| type := 5; hash := 1; total_frame := 3; current_frame := 1; data_couple := [10] |}.

(** The fragments of [l] of category [c] and hash [h], in order. *)
Definition matching (c h : Z) (l : list NavGetCommDataAck) : list NavGetCommDataAck :=
  List.filter (fun f => bool_decide (type f = c) && bool_decide (hash f = h)) l.

(** The FrameSet found under a hash after the fragments [m] were ingested
    for it, from the FrameSet [o] found there before. *)
Definition extended (o : option FrameList) (m : list NavGetCommDataAck) : option FrameList :=
  match o, m with
  | None, [] => None
  | None, f :: m' => Some {| fl_total_frame := total_frame f; data := f :: f :: m' |}
  | Some fl, _ => Some {| fl_total_frame := fl_total_frame fl; data := data fl ++ m |}
  end.

End HashListModel.

(** ** mammotion.py *)

Module MammotionModel.

Inductive ConnectionPreference :=
| EITHER       (* 0 *)
| WIFI         (* 1 *)
| BLUETOOTH.   (* 2 *)

#[global] Instance ConnectionPreference_eq_dec : EqDecision ConnectionPreference.
Proof. solve_decision. Defined.

(** The classes of the collaborators ([Device] of the account's device
    list, bleak's [BLEDevice], [CloudIOTGateway], [MammotionCloud],
    [MammotionBaseBLEDevice], [MammotionBaseCloudDevice]) are imported by
    mammotion.py from modules that are not embedded here. They are records
    of the attributes mammotion.py reads. *)

(** Modelled from the spec: class [Device] of
    [pymammotion.aliyun.dataclass.dev_by_account_response], a device
    descriptor of the account's device list. *)
Record Device := {
  deviceName : string;
  iotId : string
}.

(** Modelled from the spec: bleak's [BLEDevice], the raw platform device
    reference of the radio transport. *)
Record BLEDevice := {
  ble_name : string;     (* BLEDevice.name *)
  address : string
}.

(** Modelled from the spec: class [CloudIOTGateway] of
    [pymammotion.aliyun.cloud_gateway], the authenticated cloud context a
    login exchange returns. *)
Record CloudIOTGateway := {
  client_id : string;
  regionId : string;
  productKey : string;
  aep_deviceName : string;
  deviceSecret : string;
  iotToken : string;
  devices_by_account_response : list Device   (* .data.data *)
}.

(** Modelled from the spec: class [MammotionCloud] of
    [pymammotion.mammotion.devices.mammotion_cloud], the broker connection
    object of one account. [==] and [!=] on it compare object identity,
    here [mqtt_id]. Its connection status changes behind the orchestrator's
    back and is kept in the [world], by identity; the orchestrator never
    calls [is_connected()], so it never learns it. *)
Record MammotionCloud := {
  mqtt_id : positive;
  cloud_client : CloudIOTGateway
}.

(** Modelled from the spec: class [MammotionBaseBLEDevice] of
    [pymammotion.mammotion.devices.mammotion_bluetooth], the radio handle,
    constructed from the platform device reference. *)
Record MammotionBaseBLEDevice := {
  ble_device : BLEDevice
}.

(** Modelled from the spec: class [MammotionBaseCloudDevice] of
    [pymammotion.mammotion.devices.mammotion_cloud], the cloud handle,
    constructed from a broker connection and a device descriptor. Its
    attribute [mqtt] reads the broker connection it is bound to, the one
    [replace_mqtt] assigns as [_mqtt]. *)
Record MammotionBaseCloudDevice := {
  _mqtt : option MammotionCloud;
  cloud_device : Device
}.

#[global] Instance Device_eq_dec : EqDecision Device.
Proof. solve_decision. Defined.
#[global] Instance BLEDevice_eq_dec : EqDecision BLEDevice.
Proof. solve_decision. Defined.
#[global] Instance CloudIOTGateway_eq_dec : EqDecision CloudIOTGateway.
Proof. solve_decision. Defined.
#[global] Instance MammotionCloud_eq_dec : EqDecision MammotionCloud.
Proof. solve_decision. Defined.
#[global] Instance MammotionBaseBLEDevice_eq_dec : EqDecision MammotionBaseBLEDevice.
Proof. solve_decision. Defined.
#[global] Instance MammotionBaseCloudDevice_eq_dec : EqDecision MammotionBaseCloudDevice.
Proof. solve_decision. Defined.

(** [a == b] on two values that are a [MammotionCloud] object or [None]. *)
Definition mqtt_eqb (a b : option MammotionCloud) : bool :=
  match a, b with
  | Some x, Some y => bool_decide (mqtt_id x = mqtt_id y)
  | None, None => true
  | _, _ => false
  end.

(** *** class MammotionMixedDeviceManager
    (the shared [_mowing_state] object is left out: no routing or registry
    decision reads it) *)
Record MammotionMixedDeviceManager := {
  name : string;
  _ble_device : option MammotionBaseBLEDevice;
  _cloud_device : option MammotionBaseCloudDevice;
  preference : ConnectionPreference
}.

#[global] Instance MammotionMixedDeviceManager_eq_dec : EqDecision MammotionMixedDeviceManager.
Proof. solve_decision. Defined.

Definition ble (self : MammotionMixedDeviceManager) : option MammotionBaseBLEDevice :=
  _ble_device self.

Definition cloud (self : MammotionMixedDeviceManager) : option MammotionBaseCloudDevice :=
  _cloud_device self.

Definition add_ble (self : MammotionMixedDeviceManager) (ble_device : option BLEDevice)
  : MammotionMixedDeviceManager :=
  match ble_device with
  | Some b =>
      {| name := name self;
         _ble_device := Some {| ble_device := b |};
         _cloud_device := _cloud_device self;
         preference := preference self |}
  | None => self
  end.

Definition add_cloud (self : MammotionMixedDeviceManager)
  (cloud_device : option Device) (mqtt : option MammotionCloud)
  : MammotionMixedDeviceManager :=
  match cloud_device with
  | Some d =>
      {| name := name self;
         _ble_device := _ble_device self;
         _cloud_device := Some {| _mqtt := mqtt; cloud_device := d |};
         preference := preference self |}
  | None => self
  end.

Definition replace_cloud (self : MammotionMixedDeviceManager)
  (cloud_device : option MammotionBaseCloudDevice) : MammotionMixedDeviceManager :=
  {| name := name self;
     _ble_device := _ble_device self;
     _cloud_device := cloud_device;
     preference := preference self |}.

Definition replace_ble (self : MammotionMixedDeviceManager)
  (ble_device : option MammotionBaseBLEDevice) : MammotionMixedDeviceManager :=
  {| name := name self;
     _ble_device := ble_device;
     _cloud_device := _cloud_device self;
     preference := preference self |}.

(** [self._cloud_device._mqtt = mqtt]: an attribute of [None] cannot be set. *)
Definition replace_mqtt (self : MammotionMixedDeviceManager) (mqtt : MammotionCloud)
  : py_result MammotionMixedDeviceManager :=
  match _cloud_device self with
  | Some c =>
      Ok {| name := name self;
            _ble_device := _ble_device self;
            _cloud_device := Some {| _mqtt := Some mqtt; cloud_device := cloud_device c |};
            preference := preference self |}
  | None => Raise AttributeError
  end.

Definition has_cloud (self : MammotionMixedDeviceManager) : bool :=
  bool_decide (_cloud_device self <> None).

Definition has_ble (self : MammotionMixedDeviceManager) : bool :=
  bool_decide (_ble_device self <> None).

(** [MammotionMixedDeviceManager(name, cloud_device, ble_device, mqtt, preference)] *)
Definition MammotionMixedDeviceManager_init (name : string)
  (cloud_device : option Device) (ble_device : option BLEDevice)
  (mqtt : option MammotionCloud) (preference : ConnectionPreference)
  : MammotionMixedDeviceManager :=
  let self :=
    {| name := name; _ble_device := None; _cloud_device := None;
       preference := preference |} in
  let self := add_ble self ble_device in
  add_cloud self cloud_device mqtt.

(** *** class MammotionDevices: the registry [devices], a dict by name whose
    values are mutated in place *)

Definition add_device (devices : gmap string MammotionMixedDeviceManager)
  (mammotion_device : MammotionMixedDeviceManager)
  : gmap string MammotionMixedDeviceManager :=
  match devices !! name mammotion_device with
  | None => <[name mammotion_device := mammotion_device]> devices
  | Some exists_ =>
      let exists_ :=
        if has_cloud mammotion_device
        then replace_cloud exists_ (cloud mammotion_device) else exists_ in
      let exists_ :=
        if has_ble mammotion_device
        then replace_ble exists_ (ble mammotion_device) else exists_ in
      <[name mammotion_device := exists_]> devices
  end.

Definition get_device (devices : gmap string MammotionMixedDeviceManager)
  (mammotion_device_name : string) : option MammotionMixedDeviceManager :=
  devices !! mammotion_device_name.

(** Calls that leave the orchestrator, in the order they are made. *)
Inductive event :=
| EvLogin (account password : string)   (* self.login: the network login exchange *)
| EvNewMqtt (m : MammotionCloud)        (* MammotionCloud(MammotionMQTT(...), cloud_client) *)
| EvConnect (m : MammotionCloud)        (* connect_async handed to the executor *)
| EvDisconnect (m : MammotionCloud).    (* _mqtt.disconnect() *)

#[global] Instance event_eq_dec : EqDecision event.
Proof. solve_decision. Defined.

(** The remaining devices bound to the broker connection of the removed one. *)
Definition should_disconnect (devices : gmap string MammotionMixedDeviceManager)
  (device_for_removal : MammotionBaseCloudDevice) : list MammotionMixedDeviceManager :=
  List.filter
    (fun device =>
       match cloud device with
       | Some c => mqtt_eqb (_mqtt c) (_mqtt device_for_removal)
       | None => false
       end)
    (snd <$> map_to_list devices).

(** [remove_device]: the registry after the call (the [pop] is not undone
    by a later exception), the calls made, and the outcome. *)
Definition remove_device (devices : gmap string MammotionMixedDeviceManager)
  (name : string)
  : gmap string MammotionMixedDeviceManager * list event * py_result unit :=
  match devices !! name with
  | None => (devices, [], Raise KeyError)
  | Some device_for_removal =>
      let devices := delete name devices in
      match cloud device_for_removal with
      | Some c =>
          if bool_decide (length (should_disconnect devices c) = 0%nat) then
            match _mqtt c with
            | Some m => (devices, [EvDisconnect m], Ok tt)
            | None => (devices, [], Raise AttributeError)
            end
          else (devices, [], Ok tt)
      | None => (devices, [], Ok tt)
      end
  end.

(** *** class Mammotion *)

(** The process-wide state: the registry, the sessions by account, and the
    connection status of every broker connection object. *)
Record world := {
  devices : gmap string MammotionMixedDeviceManager;   (* Mammotion.devices.devices *)
  mqtt_list : gmap string MammotionCloud;              (* Mammotion.mqtt_list *)
  self_cloud_client : option CloudIOTGateway;          (* Mammotion.cloud_client *)
  connected : gset positive;        (* the broker connections that are connected *)
  next_mqtt_id : positive;          (* identity of the next object constructed *)
  trace : list event
}.

Definition set_devices (d : gmap string MammotionMixedDeviceManager) (w : world) : world :=
  {| devices := d; mqtt_list := mqtt_list w; self_cloud_client := self_cloud_client w;
     connected := connected w; next_mqtt_id := next_mqtt_id w; trace := trace w |}.

Definition add_event (ev : event) (w : world) : world :=
  {| devices := devices w; mqtt_list := mqtt_list w; self_cloud_client := self_cloud_client w;
     connected := connected w; next_mqtt_id := next_mqtt_id w; trace := trace w ++ [ev] |}.

Definition set_connected (m : positive) (b : bool) (w : world) : world :=
  {| devices := devices w; mqtt_list := mqtt_list w; self_cloud_client := self_cloud_client w;
     connected := if b then {[m]} ∪ connected w else connected w ∖ {[m]};
     next_mqtt_id := next_mqtt_id w; trace := trace w |}.

(** Modelled from the spec: the connection object exposes [is_connected].
    In class [MammotionCloud] it is a method, and line 174 of mammotion.py
    reads the attribute without calling it:
    [if self.mqtt_list.get(account).is_connected:]. What the [if] tests is
    the bound method object, which is truthy whatever the connection status
    in [connected w] is. *)
Definition is_connected (w : world) (m : MammotionCloud) : bool := true.

(** State and exceptions: a raised exception keeps the state reached. *)
Definition M (A : Type) : Type := world -> py_result A * world.

#[global] Instance M_ret : MRet M := fun A a w => (Ok a, w).
#[global] Instance M_bind : MBind M :=
  fun A B k m w =>
    match m w with
    | (Ok a, w) => k a w
    | (Raise e, w) => (Raise e, w)
    end.

Definition add_ble_device (ble_device : option BLEDevice) (preference : ConnectionPreference)
  : M unit :=
  fun w =>
    match ble_device with
    | Some b =>
        (Ok tt,
         set_devices
           (add_device (devices w)
              (MammotionMixedDeviceManager_init (ble_name b) None (Some b) None preference))
           w)
    | None => (Ok tt, w)
    end.

(** [name.startswith(("Luba-", "Yuka-"))] *)
Definition recognized_name (s : string) : bool :=
  String.prefix "Luba-" s || String.prefix "Yuka-" s.

(** The body of the loop of [add_cloud_devices], on the registry. *)
Definition add_cloud_devices_body (mqtt_client : MammotionCloud)
  (devices : gmap string MammotionMixedDeviceManager) (device : Device)
  : py_result (gmap string MammotionMixedDeviceManager) :=
  match get_device devices (deviceName device) with
  | None =>
      if recognized_name (deviceName device) then
        Ok (add_device devices
              (MammotionMixedDeviceManager_init (deviceName device)
                 (Some device) None (Some mqtt_client) WIFI))
      else Ok devices
  | Some mower_device =>
      if recognized_name (deviceName device) then
        match cloud mower_device with
        | None =>
            Ok (<[deviceName device :=
                    add_cloud mower_device (Some device) (Some mqtt_client)]> devices)
        | Some c =>
            if negb (mqtt_eqb (Some mqtt_client) (_mqtt c)) then
              mower_device ← replace_mqtt mower_device mqtt_client;
              Ok (<[deviceName device := mower_device]> devices)
            else Ok devices
        end
      else Ok devices
  end.

Fixpoint add_cloud_devices_loop (mqtt_client : MammotionCloud) (l : list Device)
  (devices : gmap string MammotionMixedDeviceManager)
  : py_result (gmap string MammotionMixedDeviceManager) :=
  match l with
  | [] => Ok devices
  | device :: l =>
      devices ← add_cloud_devices_body mqtt_client devices device;
      add_cloud_devices_loop mqtt_client l devices
  end.

Definition add_cloud_devices (mqtt_client : MammotionCloud) : M unit :=
  fun w =>
    match add_cloud_devices_loop mqtt_client
            (devices_by_account_response (cloud_client mqtt_client)) (devices w) with
    | Ok d => (Ok tt, set_devices d w)
    | Raise e => (Raise e, w)
    end.

(** [MammotionCloud(MammotionMQTT(...), cloud_client)]: a new object. *)
Definition MammotionCloud_init (cloud_client : CloudIOTGateway) : M MammotionCloud :=
  fun w =>
    let m := {| mqtt_id := next_mqtt_id w; cloud_client := cloud_client |} in
    (Ok m,
     {| devices := devices w; mqtt_list := mqtt_list w;
        self_cloud_client := self_cloud_client w; connected := connected w;
        next_mqtt_id := Pos.succ (next_mqtt_id w); trace := trace w ++ [EvNewMqtt m] |}).

(** [initiate_cloud_connection] up to its [await]: [None] when the function
    has returned, [Some m] when [m.connect_async] is to be run in the
    executor. *)
Definition initiate_cloud_connection_start (account : string)
  (cloud_client : CloudIOTGateway) : M (option MammotionCloud) :=
  fun w =>
    match
      match mqtt_list w !! account with
      | Some m => if is_connected w m then Some m else None
      | None => None
      end
    with
    | Some m =>
        (* we might have removed a device so readd *)
        (_ ← add_cloud_devices m; mret None) w
    | None =>
        let w :=
          {| devices := devices w; mqtt_list := mqtt_list w;
             self_cloud_client := Some cloud_client; connected := connected w;
             next_mqtt_id := next_mqtt_id w; trace := trace w |} in
        (mammotion_cloud ← MammotionCloud_init cloud_client;
         _ ← (fun w =>
                (Ok tt,
                 {| devices := devices w;
                    mqtt_list := <[account := mammotion_cloud]> (mqtt_list w);
                    self_cloud_client := self_cloud_client w; connected := connected w;
                    next_mqtt_id := next_mqtt_id w; trace := trace w |}));
         _ ← add_cloud_devices mammotion_cloud;
         mret (Some mammotion_cloud)) w
    end.

(** One call run on its own: the login exchange and the executor answer
    what [login_exchange] and [connect_async] say. The lock of
    [login_and_initiate_cloud] is free before and after such a call; it is
    part of the task system below. *)
Section Sequential.

Variable login_exchange : string -> string -> py_result CloudIOTGateway.
Variable connect_async : MammotionCloud -> py_result unit.

Definition login (account password : string) : M CloudIOTGateway :=
  fun w => (login_exchange account password, add_event (EvLogin account password) w).

Definition run_in_executor_connect_async (m : MammotionCloud) : M unit :=
  fun w => (connect_async m, add_event (EvConnect m) w).

Definition initiate_cloud_connection (account : string) (cloud_client : CloudIOTGateway)
  : M unit :=
  pending ← initiate_cloud_connection_start account cloud_client;
  match pending with
  | Some m => run_in_executor_connect_async m
  | None => mret tt
  end.

Definition login_and_initiate_cloud (account password : string) (force : bool) : M unit :=
  fun w =>
    let exists_ := mqtt_list w !! account in
    (cloud_client ←
       match exists_ with
       | Some e => if force then login account password else mret (cloud_client e)
       | None => login account password
       end;
     initiate_cloud_connection account cloud_client) w.

End Sequential.

Definition get_device_by_name (self : world) (name : string)
  : option MammotionMixedDeviceManager :=
  get_device (devices self) name.

(** [Mammotion.remove_device] *)
Definition Mammotion_remove_device (name : string) : M unit :=
  fun w =>
    let '(d, evs, r) := remove_device (devices w) name in
    (r,
     {| devices := d; mqtt_list := mqtt_list w; self_cloud_client := self_cloud_client w;
        connected := connected w; next_mqtt_id := next_mqtt_id w;
        trace := trace w ++ evs |}).

(** *** Command routing *)

Inductive py_any :=
| AnyNone
| AnyBool (b : bool)
| AnyInt (z : Z)
| AnyStr (s : string).

(** The calls into the two transports. *)
Inductive transport_call :=
| BleCommand (h : MammotionBaseBLEDevice) (key : string) (kwargs : list (string * py_any))
| CloudCommand (h : MammotionBaseCloudDevice) (key : string) (kwargs : list (string * py_any))
| BleStartSync (h : MammotionBaseBLEDevice) (retry : Z)
| CloudStartSync (h : MammotionBaseCloudDevice) (retry : Z)
| BleStartMapSync (h : MammotionBaseBLEDevice)
| CloudStartMapSync (h : MammotionBaseCloudDevice).

(** How a routing coroutine ends when it does not raise itself. *)
Inductive routed :=
| ReturnNone                          (* falls off the end: no transport is called *)
| ReturnAwait (c : transport_call).   (* [return await c]: whatever the transport does *)

(** [handle.method(...)]: calling a method of [None] raises. *)
Definition call_method {H : Type} (handle : option H) (method : H -> transport_call)
  : py_result routed :=
  match handle with
  | Some h => Ok (ReturnAwait (method h))
  | None => Raise AttributeError
  end.

Definition send_command (self : world) (name key : string) : py_result routed :=
  match get_device_by_name self name with
  | Some device =>
      if bool_decide (preference device = BLUETOOTH) then
        call_method (ble device) (fun h => BleCommand h key [])
      else if bool_decide (preference device = WIFI) then
        call_method (cloud device) (fun h => CloudCommand h key [])
      else Ok ReturnNone   (* TODO work with both with EITHER *)
  | None => Ok ReturnNone
  end.

Definition send_command_with_args (self : world) (name key : string)
  (kwargs : list (string * py_any)) : py_result routed :=
  match get_device_by_name self name with
  | Some device =>
      if bool_decide (preference device = BLUETOOTH) then
        call_method (ble device) (fun h => BleCommand h key kwargs)
      else if bool_decide (preference device = WIFI) then
        call_method (cloud device) (fun h => CloudCommand h key kwargs)
      else Ok ReturnNone
  | None => Ok ReturnNone
  end.

Definition start_sync (self : world) (name : string) (retry : Z) : py_result routed :=
  match get_device_by_name self name with
  | Some device =>
      if bool_decide (preference device = BLUETOOTH) then
        call_method (ble device) (fun h => BleStartSync h retry)
      else if bool_decide (preference device = WIFI) then
        call_method (cloud device) (fun h => CloudStartSync h retry)
      else Ok ReturnNone
  | None => Ok ReturnNone
  end.

Definition start_map_sync (self : world) (name : string) : py_result routed :=
  match get_device_by_name self name with
  | Some device =>
      if bool_decide (preference device = BLUETOOTH) then
        call_method (ble device) BleStartMapSync
      else if bool_decide (preference device = WIFI) then
        call_method (cloud device) CloudStartMapSync
      else Ok ReturnNone
  | None => Ok ReturnNone
  end.

(** *** The coroutines of [login_and_initiate_cloud] under the scheduler

    asyncio runs one coroutine at a time and switches only at an [await]
    that suspends: waiting for [_login_lock], for [self.login], and for the
    executor. Between two such points a coroutine runs alone. *)

Inductive coroutine :=
| AtEntry (account password : string) (force : bool)
    (* called, not yet inside [async with self._login_lock] *)
| AwaitLogin (account : string)
    (* holds the lock, suspended in [await self.login(account, password)] *)
| AwaitConnect (account : string) (m : MammotionCloud)
    (* holds the lock, suspended in [await loop.run_in_executor(...)] *)
| Finished (r : py_result unit).

Record system := {
  shared : world;
  _login_lock : bool;          (* [asyncio.Lock.locked()] *)
  tasks : list coroutine
}.

(** What the scheduler and the outside world can do next. *)
Inductive label :=
| Enter (i : nat)
    (* task [i] gets the lock and runs up to its first suspension *)
| LoginDone (i : nat) (r : py_result CloudIOTGateway)
    (* the login exchange of task [i] ends with [r] *)
| ConnectDone (i : nat) (r : py_result unit) (now_connected : bool)
    (* the executor ends [connect_async] of task [i] with [r]; the broker
       connection reports [now_connected] at that time *)
| Broker (m : positive) (b : bool).
    (* the broker connection [m] starts or stops reporting connected *)

(** Leaving the [async with] block: the lock is released and the coroutine
    ends with [r]. *)
Definition leave (i : nat) (r : py_result unit) (w : world) (s : system) : system :=
  {| shared := w; _login_lock := false; tasks := <[i := Finished r]> (tasks s) |}.

(** [await self.initiate_cloud_connection(account, cloud_client)] up to its
    suspension, by the task [i] that holds the lock. *)
Definition connection_step (i : nat) (account : string) (cloud_client : CloudIOTGateway)
  (s : system) : system :=
  match initiate_cloud_connection_start account cloud_client (shared s) with
  | (Ok None, w) => leave i (Ok tt) w s
  | (Ok (Some m), w) =>
      {| shared := add_event (EvConnect m) w; _login_lock := true;
         tasks := <[i := AwaitConnect account m]> (tasks s) |}
  | (Raise e, w) => leave i (Raise e) w s
  end.

Definition sys_step (l : label) (s : system) : option system :=
  match l with
  | Enter i =>
      match tasks s !! i with
      | Some (AtEntry account password force) =>
          if _login_lock s then None
          else
            let start_login :=
              {| shared := add_event (EvLogin account password) (shared s);
                 _login_lock := true;
                 tasks := <[i := AwaitLogin account]> (tasks s) |} in
            match mqtt_list (shared s) !! account with
            | Some exists_ =>
                if force then Some start_login
                else Some (connection_step i account (cloud_client exists_) s)
            | None => Some start_login
            end
      | _ => None
      end
  | LoginDone i r =>
      match tasks s !! i with
      | Some (AwaitLogin account) =>
          match r with
          | Ok cloud_client => Some (connection_step i account cloud_client s)
          | Raise e => Some (leave i (Raise e) (shared s) s)
          end
      | _ => None
      end
  | ConnectDone i r now_connected =>
      match tasks s !! i with
      | Some (AwaitConnect account m) =>
          Some (leave i r (set_connected (mqtt_id m) now_connected (shared s)) s)
      | _ => None
      end
  | Broker m b =>
      Some {| shared := set_connected m b (shared s);
              _login_lock := _login_lock s; tasks := tasks s |}
  end.

Fixpoint run (ls : list label) (s : system) : option system :=
  match ls with
  | [] => Some s
  | l :: ls =>
      match sys_step l s with
      | Some s => run ls s
      | None => None
      end
  end.

(** [n] concurrent calls [login_and_initiate_cloud(account, password)], with
    [force] left at its default. *)
Definition start (n : nat) (account password : string) (w : world) : system :=
  {| shared := w; _login_lock := false;
     tasks := replicate n (AtEntry account password false) |}.

Definition is_finished (t : coroutine) : bool :=
  match t with Finished _ => true | _ => false end.

Definition awaits_login (t : coroutine) : bool :=
  match t with AwaitLogin _ => true | _ => false end.

Definition awaits_connect (t : coroutine) : bool :=
  match t with AwaitConnect _ _ => true | _ => false end.

(** The coroutines inside the [async with] block. *)
Definition inside (t : coroutine) : bool := awaits_login t || awaits_connect t.

Definition count_tasks (P : coroutine -> bool) (l : list coroutine) : nat :=
  length (List.filter P l).

Definition is_login (ev : event) : bool :=
  match ev with EvLogin _ _ => true | _ => false end.

Definition is_new_mqtt (ev : event) : bool :=
  match ev with EvNewMqtt _ => true | _ => false end.

Definition logins (tr : list event) : nat := length (List.filter is_login tr).

Definition brokers_created (tr : list event) : nat := length (List.filter is_new_mqtt tr).


(** *** Predicates used to state the properties *)

(** Another registered device than [name] is bound to the broker
    connection object [m]. *)
Definition shared_with_other (devices : gmap string MammotionMixedDeviceManager)
  (name : string) (m : MammotionCloud) : Prop :=
  exists n dev c m', n <> name /\ devices !! n = Some dev /\ cloud dev = Some c /\
    _mqtt c = Some m' /\ mqtt_id m' = mqtt_id m.

(** The entry one pass of the loop of [add_cloud_devices] leaves under the
    name of a recognized [device], from the entry [o] found there. *)
Definition reconciled (m : MammotionCloud) (device : Device)
  (o : option MammotionMixedDeviceManager) : MammotionMixedDeviceManager :=
  match o with
  | None =>
      {| name := deviceName device; _ble_device := None;
         _cloud_device := Some {| _mqtt := Some m; cloud_device := device |};
         preference := WIFI |}
  | Some e =>
      {| name := name e; _ble_device := _ble_device e;
         _cloud_device :=
           match _cloud_device e with
           | None => Some {| _mqtt := Some m; cloud_device := device |}
           | Some c =>
               Some {| _mqtt := if mqtt_eqb (Some m) (_mqtt c) then _mqtt c else Some m;
                       cloud_device := cloud_device c |}
           end;
         preference := preference e |}
  end.

(** The first descriptor of the device list that the loop acts on for the
    name [n]. *)
Definition first_recognized (l : list Device) (n : string) : option Device :=
  List.find
    (fun device => recognized_name (deviceName device) && bool_decide (deviceName device = n))
    l.

Definition b2n (b : bool) : nat := if b then 1 else 0.

(** The lock is held exactly when one coroutine is inside the block. *)
Definition lock_inv (s : system) : Prop :=
  (_login_lock s = true /\ count_tasks inside (tasks s) = 1%nat) \/
  (_login_lock s = false /\ count_tasks inside (tasks s) = 0%nat).





(** *** Values for the scenarios *)

Definition empty_world : world :=
  {| devices := ∅; mqtt_list := ∅; self_cloud_client := None; connected := ∅;
     next_mqtt_id := 1%positive; trace := [] |}.

Definition luba1_ble : BLEDevice := {| ble_name := "Luba-1"; address := "AA:BB" |}.
Definition luba1 : Device := {| deviceName := "Luba-1"; iotId := "iot-1" |}.
Definition luba2 : Device := {| deviceName := "Luba-2"; iotId := "iot-2" |}.
Definition rtk : Device := {| deviceName := "RTK-7"; iotId := "iot-7" |}.

Definition gateway : CloudIOTGateway :=
  {| client_id := "client"; regionId := "eu"; productKey := "pk";
     aep_deviceName := "dn"; deviceSecret := "ds"; iotToken := "tok";
     devices_by_account_response := [luba1; luba2; rtk] |}.

Definition broker1 : MammotionCloud := {| mqtt_id := 1; cloud_client := gateway |}.
Definition broker2 : MammotionCloud := {| mqtt_id := 2; cloud_client := gateway |}.

(** A radio-only device whose preference is WIFI, and one whose preference
    is EITHER. *)
Definition wifi_without_cloud : world :=
  set_devices
    {[ "Luba-1" := MammotionMixedDeviceManager_init "Luba-1" None (Some luba1_ble) None WIFI ]}
    empty_world.

Definition either_world : world :=
  set_devices
    {[ "Luba-1" := MammotionMixedDeviceManager_init "Luba-1" None (Some luba1_ble) None EITHER ]}
    empty_world.

(** The registry after [add_ble_device] of the radio device "Luba-1", and
    two descriptors for the same name. *)
Definition radio_registered : gmap string MammotionMixedDeviceManager :=
  devices (add_ble_device (Some luba1_ble) BLUETOOTH empty_world).2.

Definition cloud_descriptor : MammotionMixedDeviceManager :=
  MammotionMixedDeviceManager_init "Luba-1" (Some luba1) None (Some broker1) WIFI.

Definition radio_descriptor : MammotionMixedDeviceManager :=
  MammotionMixedDeviceManager_init "Luba-1" None
    (Some {| ble_name := "Luba-1"; address := "CC:DD" |}) None EITHER.

(** Two cloud devices on one broker connection. *)
Definition two_devices : gmap string MammotionMixedDeviceManager :=
  add_device
    (add_device ∅
       (MammotionMixedDeviceManager_init "Luba-1" (Some luba1) None (Some broker1) WIFI))
    (MammotionMixedDeviceManager_init "Luba-2" (Some luba2) None (Some broker1) WIFI).

(** "Luba-1" known by radio only, "Luba-2" bound to [broker1]. *)
Definition before_reconciliation : world :=
  set_devices
    (<["Luba-2" := {| name := "Luba-2"; _ble_device := None;
                      _cloud_device := Some {| _mqtt := Some broker1; cloud_device := luba2 |};
                      preference := WIFI |}]> radio_registered)
    empty_world.

(** A session for the account, whose broker connection is connected. *)
Definition session_world : world :=
  {| devices := ∅; mqtt_list := {[ "user@example.org" := broker1 ]};
     self_cloud_client := Some gateway; connected := {[ 1%positive ]};
     next_mqtt_id := 2%positive; trace := [] |}.

(** Two calls, one after the other; the connect of the first raises and its
    broker connection is not connected when the second runs. *)
Definition schedule2 : list label :=
  [Enter 0; LoginDone 0 (Ok gateway); ConnectDone 0 (Raise ConnectionError) false; Enter 1].


(** *** The other entry points of the module *)

(** *** create_devices *)

(** Modelled from the spec: class [Credentials] of
    [pymammotion.data.model.account], the account identifier and the
    credential handed to the login exchange; the three attributes
    [create_devices] reads, each a string or [None]. *)
Record Credentials := {
  email : option string;
  password : option string;
  account_id : option string
}.

(** [a or b] on two values that are a [str] or [None]: [a] when it is a
    non-empty string, [b] otherwise. *)
Definition py_or (a b : option string) : option string :=
  match a with
  | Some s => if String.eqb s "" then b else a
  | None => b
  end.

(** How [create_devices] goes on after the radio device is registered. *)
Inductive created :=
| ReturnMammotion
    (* no cloud login: [return mammotion] *)
| AwaitLoginAndInitiate (account password : option string).
    (* [await mammotion.login_and_initiate_cloud(account, password)],
       then [return mammotion] *)

Definition raise {A : Type} (e : py_exception) : M A := fun w => (Raise e, w).

(** [create_devices(ble_device, cloud_credentials, preference)], on the
    state of the [Mammotion] singleton. The condition reads
    [(cloud_credentials and preference == EITHER) or preference == WIFI]. *)
Definition create_devices (ble_device : option BLEDevice)
  (cloud_credentials : option Credentials) (preference : ConnectionPreference)
  : M created :=
  _ ← add_ble_device ble_device preference;
  if (bool_decide (cloud_credentials <> None) && bool_decide (preference = EITHER))
     || bool_decide (preference = WIFI)
  then
    match cloud_credentials with
    | Some c => mret (AwaitLoginAndInitiate (py_or (account_id c) (email c)) (password c))
    | None => raise AttributeError   (* [None.account_id] *)
    end
  else mret ReturnMammotion.

(** *** set_disconnect_strategy *)

(** The objects the loop variable [device] can be bound to. *)
Inductive py_obj :=
| ObjStr (s : string)
| ObjManager (m : MammotionMixedDeviceManager).

(** The exceptions of the loop: unpacking raises [ValueError]. *)
Inductive loop_exception :=
| ValueError
| Builtin (e : py_exception).

(** [device_name, device = key]: a string unpacks into two variables when it
    has two characters, each a string of one character. A [string] here is
    the sequence of the characters of the Python [str], one [ascii] for each
    character; names with a character beyond code point 255 are outside
    the model. *)
Definition unpack2 (key : string) : option (string * string) :=
  match key with
  | String a (String b EmptyString) => Some (String a EmptyString, String b EmptyString)
  | _ => None
  end.

(** [device.ble()]: a [str] has no attribute [ble]. *)
Definition obj_ble (device : py_obj) : py_result (option MammotionBaseBLEDevice) :=
  match device with
  | ObjManager m => Ok (ble m)
  | ObjStr _ => Raise AttributeError
  end.

(** The call into the radio transport. *)
Inductive ble_call :=
| SetDisconnectStrategy (h : MammotionBaseBLEDevice) (disconnect : bool).

(** [for device_name, device in self.devices.devices: ...]: iterating a dict
    yields its keys, here [keys]; the calls made so far are [calls]. *)
Fixpoint set_disconnect_strategy_loop (keys : list string) (disconnect : bool)
  (calls : list ble_call) : list ble_call * option loop_exception :=
  match keys with
  | [] => (calls, None)
  | key :: keys =>
      match unpack2 key with
      | None => (calls, Some ValueError)
      | Some (device_name, device) =>
          match obj_ble (ObjStr device) with
          | Raise e => (calls, Some (Builtin e))
          | Ok None => set_disconnect_strategy_loop keys disconnect calls
          | Ok (Some ble_device) =>
              set_disconnect_strategy_loop keys disconnect
                (calls ++ [SetDisconnectStrategy ble_device disconnect])
          end
      end
  end.

(** [set_disconnect_strategy(disconnect)]. A dict is iterated in insertion
    order, which the finite map does not record: [order] is the list of the
    registry's names in that order. *)
Definition set_disconnect_strategy (order : list string) (disconnect : bool)
  : list ble_call * option loop_exception :=
  set_disconnect_strategy_loop order disconnect [].


(** *** More values for the scenarios *)

(** A cloud device constructed without a broker connection ([mqtt] left at
    its default [None]). *)
Definition unbound_cloud_registry : gmap string MammotionMixedDeviceManager :=
  {[ "Luba-1" := MammotionMixedDeviceManager_init "Luba-1" (Some luba1) None None WIFI ]}.

Definition two_devices_world : world := set_devices two_devices empty_world.

(** A radio device registered under a name of two characters. *)
Definition two_letter_world : world :=
  set_devices
    {[ "L1" := MammotionMixedDeviceManager_init "L1" None
                 (Some {| ble_name := "L1"; address := "AA:BB" |}) None BLUETOOTH ]}
    empty_world.

(** Two calls whose login exchanges both fail. *)
Definition schedule2_failing : list label :=
  [Enter 0; LoginDone 0 (Raise LoginError); Enter 1; LoginDone 1 (Raise LoginError)].

(** A login exchange that fails. *)
Definition failing_login (account password : string) : py_result CloudIOTGateway :=
  Raise LoginError.

(** *** More predicates used to state the properties *)

(** Every recognized device of the session's account is registered with a
    cloud handle bound to the session's broker connection. *)
Definition session_bound (w : world) (m : MammotionCloud) : Prop :=
  forall device, device ∈ devices_by_account_response (cloud_client m) ->
    recognized_name (deviceName device) = true ->
    exists e h, devices w !! deviceName device = Some e /\ cloud e = Some h /\
      mqtt_eqb (_mqtt h) (Some m) = true.

(** The world in which the new broker connection object [m] of the
    connection step is reconciled. *)
Definition with_new_session (account : string) (c : CloudIOTGateway) (w : world) : world :=
  let m := {| mqtt_id := next_mqtt_id w; cloud_client := c |} in
  {| devices := devices w; mqtt_list := <[account := m]> (mqtt_list w);
     self_cloud_client := Some c; connected := connected w;
     next_mqtt_id := Pos.succ (next_mqtt_id w);
     trace := trace w ++ [EvNewMqtt m] |}.

(** An outside world in which no login exchange succeeds. *)
Definition login_fails (l : label) : bool :=
  match l with
  | LoginDone _ (Ok _) => false
  | _ => true
  end.

(** What a coroutine of the calls for [account] can be while no login has
    succeeded. *)
Definition failing_task (account : string) (t : coroutine) : Prop :=
  match t with
  | AtEntry a _ _ => a = account
  | AwaitLogin a => a = account
  | AwaitConnect _ _ => False
  | Finished r => exists e, r = Raise e
  end.

Definition failing_inv (account : string) (n l0 b0 : nat) (s : system) : Prop :=
  length (tasks s) = n /\
  mqtt_list (shared s) !! account = None /\
  brokers_created (trace (shared s)) = b0 /\
  Forall (failing_task account) (tasks s) /\
  logins (trace (shared s))
    = (l0 + count_tasks awaits_login (tasks s) + count_tasks is_finished (tasks s))%nat.

End MammotionModel.

(** * The error monad *)

Lemma bind_Ok {A B} (a : A) (k : A -> py_result B) : (Ok a ≫= k) = k a.
Proof. reflexivity. Qed.

Lemma bind_Raise {A B} (e : py_exception) (k : A -> py_result B) : (Raise e ≫= k) = Raise e.
Proof. reflexivity. Qed.

(** * Properties of hash_list.py *)

Module HashListFacts.
Import HashListModel.

(** The membership test of [_add_hash_data] looks for a message in a list
    of integers: it never finds it. *)
Lemma py_in_msg_hashes (m : NavGetCommDataAck) (l : list NavGetCommDataAck) :
  py_in (PyMsg m) (map (fun item => PyInt (hash item)) l) = false.
Proof. induction l as [|x l IH]; simpl; auto. Qed.

Lemma _add_hash_data_eq (d : gmap Z FrameList) (f : NavGetCommDataAck) :
  _add_hash_data d f = Ok (<[hash f := appended d f]> d).
Proof.
  unfold _add_hash_data, appended.
  destruct (d !! hash f) as [fl|] eqn:E.
  - unfold py_getitem. rewrite E, bind_Ok, py_in_msg_hashes. reflexivity.
  - unfold py_getitem. rewrite lookup_insert_eq, bind_Ok, py_in_msg_hashes.
    cbn. rewrite insert_insert_eq. reflexivity.
Qed.

(** What [update] computes: it returns, and the mapping of the fragment's
    category has the fragment appended under its hash. *)
Lemma update_eq (hl : HashList) (f : NavGetCommDataAck) :
  exists hl', update hl f = Ok hl' /\
    forall c, mapping c hl' =
      if bool_decide (c = type f) && recognized c
      then <[hash f := appended (mapping c hl) f]> (mapping c hl)
      else mapping c hl.
Proof.
  unfold update.
  destruct (bool_decide (type f = 0)) eqn:E0;
  destruct (bool_decide (type f = 1)) eqn:E1;
  destruct (bool_decide (type f = 2)) eqn:E2;
  try apply bool_decide_eq_true in E0; try apply bool_decide_eq_true in E1;
  try apply bool_decide_eq_true in E2; try lia;
  try apply bool_decide_eq_false in E0; try apply bool_decide_eq_false in E1;
  try apply bool_decide_eq_false in E2;
  rewrite ?_add_hash_data_eq, ?bind_Ok; cbn [area obstacle path];
  rewrite ?_add_hash_data_eq, ?bind_Ok; cbn [area obstacle path];
  eexists; (split; [reflexivity|]); intros c; unfold mapping, recognized;
  cbn [area obstacle path];
  repeat case_bool_decide; subst; simpl; try reflexivity; try lia; try congruence.
Qed.

Lemma update_all_cons (hl : HashList) (f : NavGetCommDataAck) (l : list NavGetCommDataAck) :
  update_all hl (f :: l) = (update hl f ≫= fun hl => update_all hl l).
Proof. reflexivity. Qed.

(** An existing FrameSet keeps its [total_frame] through one ingest. *)
Lemma update_keeps_total_frame (hl hl' : HashList) (f : NavGetCommDataAck)
  (c h : Z) (fl : FrameList) :
  update hl f = Ok hl' ->
  mapping c hl !! h = Some fl ->
  exists fl', mapping c hl' !! h = Some fl' /\ fl_total_frame fl' = fl_total_frame fl.
Proof.
  intros Hu Hl. destruct (update_eq hl f) as (hl1 & Hu1 & Hm).
  rewrite Hu in Hu1. injection Hu1 as <-. rewrite Hm.
  destruct (bool_decide (c = type f) && recognized c); [|eauto].
  destruct (decide (h = hash f)) as [->|Hne].
  - rewrite lookup_insert_eq. eexists; split; [reflexivity|].
    unfold appended. rewrite Hl. reflexivity.
  - rewrite lookup_insert_ne by congruence. eauto.
Qed.

Lemma update_all_keeps_total_frame (l : list NavGetCommDataAck) :
  forall (hl : HashList) (c h : Z) (fl : FrameList),
  mapping c hl !! h = Some fl ->
  exists hl' fl', update_all hl l = Ok hl' /\
    mapping c hl' !! h = Some fl' /\ fl_total_frame fl' = fl_total_frame fl.
Proof.
  induction l as [|f l IH]; intros hl c h fl Hl.
  - exists hl, fl. auto.
  - destruct (update_eq hl f) as (hl1 & Hu & _).
    destruct (update_keeps_total_frame _ _ _ _ _ _ Hu Hl) as (fl1 & Hl1 & Ht1).
    destruct (IH hl1 c h fl1 Hl1) as (hl' & fl' & Hall & Hl' & Ht').
    exists hl', fl'. rewrite update_all_cons, Hu, bind_Ok. split; [|split]; auto; congruence.
Qed.

Lemma isolated_empty : isolated empty_HashList.
Proof.
  intros c h fl x H. unfold mapping in H. cbn in H.
  repeat case_bool_decide; rewrite lookup_empty in H; discriminate.
Qed.

Lemma update_isolated (hl hl' : HashList) (f : NavGetCommDataAck) :
  update hl f = Ok hl' -> isolated hl -> isolated hl'.
Proof.
  intros Hu Hiso c h fl x Hl Hx. destruct (update_eq hl f) as (hl1 & Hu1 & Hm).
  rewrite Hu in Hu1. injection Hu1 as <-. rewrite Hm in Hl.
  destruct (bool_decide (c = type f) && recognized c) eqn:E; [|eauto].
  apply andb_true_iff in E as [Ec _]. apply bool_decide_eq_true in Ec.
  destruct (decide (h = hash f)) as [->|Hne].
  - rewrite lookup_insert_eq in Hl. injection Hl as <-. unfold appended in Hx.
    destruct (mapping c hl !! hash f) as [fl0|] eqn:E0; cbn in Hx.
    + apply elem_of_app in Hx as [Hx|Hx]; [eauto|].
      apply list_elem_of_singleton in Hx. subst. auto.
    + rewrite !elem_of_cons in Hx. destruct Hx as [->|[->|Hx]]; auto.
      inversion Hx.
  - rewrite lookup_insert_ne in Hl by congruence. eauto.
Qed.

Lemma update_all_isolated (l : list NavGetCommDataAck) :
  forall hl, isolated hl -> exists hl', update_all hl l = Ok hl' /\ isolated hl'.
Proof.
  induction l as [|f l IH]; intros hl Hiso.
  - exists hl. auto.
  - destruct (update_eq hl f) as (hl1 & Hu & _).
    destruct (IH hl1 (update_isolated _ _ _ Hu Hiso)) as (hl' & Hall & Hiso').
    exists hl'. rewrite update_all_cons, Hu, bind_Ok. auto.
Qed.

(** Whatever is stored already, an ingest of a recognized category appends
    the fragment to the FrameSet of its hash, also when an equal fragment is
    in it. *)
Lemma duplicate_never_discarded (hl : HashList) (f : NavGetCommDataAck) (fl : FrameList) :
  recognized (type f) = true ->
  mapping (type f) hl !! hash f = Some fl ->
  f ∈ data fl ->
  exists hl', update hl f = Ok hl' /\
    mapping (type f) hl' !! hash f =
      Some {| fl_total_frame := fl_total_frame fl; data := data fl ++ [f] |}.
Proof.
  intros Hrec Hl _. destruct (update_eq hl f) as (hl' & Hu & Hm).
  exists hl'. split; [exact Hu|].
  rewrite Hm, Hrec, bool_decide_eq_true_2 by reflexivity. cbn.
  rewrite lookup_insert_eq. unfold appended. rewrite Hl. reflexivity.
Qed.

(** C1, on the code: ingestion does not deduplicate. Starting from the
    empty store, one ingest of [fragA] stores it twice (once by the
    creation of the FrameSet, once by the append that the membership test
    never prevents); a second ingest of the same fragment makes the
    sequence longer; and the scenario A, B, A ends with the four
    fragments [A, A, B, A], not with [A, B]. *)
Theorem duplicate_fragment_stored_again :
  frames 0 1 (update_all empty_HashList [fragA]) = Some [fragA; fragA] /\
  frames 0 1 (update_all empty_HashList [fragA; fragA]) = Some [fragA; fragA; fragA] /\
  frames 0 1 (update_all empty_HashList [fragA; fragB; fragA])
    = Some [fragA; fragA; fragB; fragA].
Proof. repeat split; vm_compute; reflexivity. Qed.

(** C8: when no FrameSet exists yet for the hash of fragment [f] in its
    (recognized) category, ingesting [f] and then any fragments [l]
    returns, and the FrameSet of that hash has [total_frame] as [f]
    declared it, whatever the fragments of [l] declare. *)
Theorem total_frame_fixed_by_first_fragment
  (hl : HashList) (f : NavGetCommDataAck) (l : list NavGetCommDataAck) :
  recognized (type f) = true ->
  mapping (type f) hl !! hash f = None ->
  exists hl' fl, update_all hl (f :: l) = Ok hl' /\
    mapping (type f) hl' !! hash f = Some fl /\
    fl_total_frame fl = total_frame f.
Proof.
  intros Hrec Hnone. destruct (update_eq hl f) as (hl1 & Hu & Hm).
  assert (H1 : mapping (type f) hl1 !! hash f =
               Some {| fl_total_frame := total_frame f; data := [f; f] |}).
  { rewrite Hm, Hrec, bool_decide_eq_true_2 by reflexivity. cbn.
    rewrite lookup_insert_eq. unfold appended. rewrite Hnone. reflexivity. }
  destruct (update_all_keeps_total_frame l hl1 _ _ _ H1) as (hl' & fl' & Hall & Hl' & Ht').
  exists hl', fl'. rewrite update_all_cons, Hu, bind_Ok. auto.
Qed.

Lemma total_frame_fixed_by_first_fragment_witness :
  exists hl' fl, update_all empty_HashList [fragA; fragC; fragB] = Ok hl' /\
    mapping 0 hl' !! 1 = Some fl /\ fl_total_frame fl = 3.
Proof.
  apply (total_frame_fixed_by_first_fragment empty_HashList fragA [fragC; fragB]);
    reflexivity.
Defined.

(** C9: an ingest returns (no exception) and changes nothing but the
    FrameSet under the fragment's hash in the mapping of the fragment's
    category; with a category other than 0, 1, 2 it changes nothing at
    all. In every store built by ingestion from the empty one, each stored
    fragment sits in the FrameSet of its own category and hash: fragments
    of different hashes, or of one hash and different categories, never
    share a FrameSet. *)
Theorem ingest_touches_only_own_frameset
  (hl : HashList) (f : NavGetCommDataAck) (l : list NavGetCommDataAck) :
  (exists hl', update hl f = Ok hl' /\
     (forall c h, c <> type f \/ h <> hash f -> mapping c hl' !! h = mapping c hl !! h) /\
     (recognized (type f) = false -> hl' = hl)) /\
  (exists hl2, update_all empty_HashList l = Ok hl2 /\ isolated hl2).
Proof.
  split; [|apply update_all_isolated, isolated_empty].
  destruct (update_eq hl f) as (hl' & Hu & Hm). exists hl'. split; [exact Hu|]. split.
  - intros c h Hne. rewrite Hm.
    destruct (bool_decide (c = type f) && recognized c) eqn:E; [|reflexivity].
    apply andb_true_iff in E as [Ec _]. apply bool_decide_eq_true in Ec.
    destruct Hne as [Hne|Hne]; [congruence|]. rewrite lookup_insert_ne by congruence. reflexivity.
  - intros Hrec.
    pose proof (Hm 0) as H0. pose proof (Hm 1) as H1. pose proof (Hm 2) as H2.
    assert (Hoff : forall c, bool_decide (c = type f) && recognized c = false).
    { intros c. destruct (decide (c = type f)) as [->|Hc].
      - rewrite Hrec. apply andb_false_r.
      - rewrite bool_decide_eq_false_2 by exact Hc. reflexivity. }
    rewrite Hoff in H0, H1, H2.
    change (area hl' = area hl) in H0. change (obstacle hl' = obstacle hl) in H1.
    change (path hl' = path hl) in H2.
    destruct hl, hl'. cbn in *. congruence.
Qed.

Lemma ingest_touches_only_own_frameset_witness :
  update empty_HashList fragX = Ok empty_HashList /\
  exists hl', update empty_HashList fragA = Ok hl' /\ obstacle hl' !! 1 = None.
Proof.
  destruct (ingest_touches_only_own_frameset empty_HashList fragX [])
    as [(hl' & Hu & _ & Hno) _].
  split; [rewrite Hu; f_equal; apply Hno; reflexivity|].
  destruct (ingest_touches_only_own_frameset empty_HashList fragA [])
    as [(hl1 & Hu1 & Hframe & _) _].
  exists hl1. split; [exact Hu1|].
  apply (Hframe 1 1). left. discriminate.
Defined.

End HashListFacts.

(** * Properties of mammotion.py *)

Module MammotionFacts.
Import MammotionModel.

Lemma M_bind_eq {A B} (m : M A) (k : A -> M B) (w : world) :
  (m ≫= k) w = match m w with
                | (Ok a, w') => k a w'
                | (Raise e, w') => (Raise e, w')
                end.
Proof. reflexivity. Qed.

(** ** Command routing *)

Section Routing.
Variables (w : world) (name key : string) (kwargs : list (string * py_any)) (retry : Z).

Lemma routing_unknown_device :
  get_device_by_name w name = None ->
  send_command w name key = Ok ReturnNone /\
  send_command_with_args w name key kwargs = Ok ReturnNone /\
  start_sync w name retry = Ok ReturnNone /\
  start_map_sync w name = Ok ReturnNone.
Proof.
  intros H. unfold send_command, send_command_with_args, start_sync, start_map_sync.
  rewrite H. auto.
Qed.

Lemma routing_absent_handle (device : MammotionMixedDeviceManager) :
  get_device_by_name w name = Some device ->
  (preference device = WIFI /\ cloud device = None) \/
  (preference device = BLUETOOTH /\ ble device = None) ->
  send_command w name key = Raise AttributeError /\
  send_command_with_args w name key kwargs = Raise AttributeError /\
  start_sync w name retry = Raise AttributeError /\
  start_map_sync w name = Raise AttributeError.
Proof.
  intros H [[Hp Hh]|[Hp Hh]];
    unfold send_command, send_command_with_args, start_sync, start_map_sync;
    rewrite H, Hp, Hh; cbn; auto.
Qed.

(** C2, as the code has it: for a name that is not in the registry each
    of the four routing operations returns [None], calling no transport and
    raising nothing (the guard [if device:]); for a registered device whose
    preference selects a handle that is absent (WIFI without a cloud
    handle, BLUETOOTH without a radio handle) each of them raises
    [AttributeError], which is not a [LookupError]. *)
Theorem routing_without_device_or_handle :
  (get_device_by_name w name = None ->
     send_command w name key = Ok ReturnNone /\
     send_command_with_args w name key kwargs = Ok ReturnNone /\
     start_sync w name retry = Ok ReturnNone /\
     start_map_sync w name = Ok ReturnNone) /\
  (forall device, get_device_by_name w name = Some device ->
     (preference device = WIFI /\ cloud device = None) \/
     (preference device = BLUETOOTH /\ ble device = None) ->
     send_command w name key = Raise AttributeError /\
     send_command_with_args w name key kwargs = Raise AttributeError /\
     start_sync w name retry = Raise AttributeError /\
     start_map_sync w name = Raise AttributeError) /\
  is_LookupError AttributeError = false.
Proof.
  split; [exact routing_unknown_device|]. split; [exact routing_absent_handle|reflexivity].
Qed.

(** C10: for a registered device whose preference is EITHER, each of the
    four routing operations returns [None]: no transport handle is called
    and nothing is raised. *)
Theorem routing_with_either_returns_none (device : MammotionMixedDeviceManager) :
  get_device_by_name w name = Some device ->
  preference device = EITHER ->
  send_command w name key = Ok ReturnNone /\
  send_command_with_args w name key kwargs = Ok ReturnNone /\
  start_sync w name retry = Ok ReturnNone /\
  start_map_sync w name = Ok ReturnNone.
Proof.
  intros H Hp. unfold send_command, send_command_with_args, start_sync, start_map_sync.
  rewrite H, Hp. cbn. auto.
Qed.

End Routing.

(** C2 as stated fails: on the empty registry [send_command] for "Luba-1"
    raises no [LookupError] (it returns [None]), and for the radio-only
    device with WIFI preference the exception raised is not of the
    [LookupError] class. *)
Lemma routing_counterexample :
  ~ (exists e, send_command empty_world "Luba-1" "get_report_cfg" = Raise e /\
               is_LookupError e = true) /\
  ~ (exists e, send_command wifi_without_cloud "Luba-1" "get_report_cfg" = Raise e /\
               is_LookupError e = true).
Proof.
  split; intros (e & H & He); vm_compute in H; [discriminate|].
  injection H as <-. discriminate.
Qed.

Lemma routing_without_device_or_handle_witness :
  send_command empty_world "Luba-1" "get_report_cfg" = Ok ReturnNone /\
  start_map_sync wifi_without_cloud "Luba-1" = Raise AttributeError.
Proof.
  destruct (routing_without_device_or_handle empty_world "Luba-1" "get_report_cfg" [] 3)
    as (Hnone & _ & _).
  destruct (routing_without_device_or_handle wifi_without_cloud "Luba-1" "get_report_cfg" [] 3)
    as (_ & Habs & _).
  split.
  - apply Hnone. reflexivity.
  - eapply Habs; [reflexivity|]. left. split; reflexivity.
Defined.

Lemma routing_with_either_returns_none_witness :
  send_command either_world "Luba-1" "get_report_cfg" = Ok ReturnNone /\
  send_command_with_args either_world "Luba-1" "get_report_cfg" [("x", AnyInt 1)]
    = Ok ReturnNone /\
  start_sync either_world "Luba-1" 3 = Ok ReturnNone /\
  start_map_sync either_world "Luba-1" = Ok ReturnNone.
Proof.
  eapply (routing_with_either_returns_none either_world "Luba-1"); reflexivity.
Defined.

(** ** The registry *)

Lemma add_device_lookup_ne (devices : gmap string MammotionMixedDeviceManager)
  (d : MammotionMixedDeviceManager) (n : string) :
  n <> name d -> add_device devices d !! n = devices !! n.
Proof.
  intros Hn. unfold add_device.
  destruct (devices !! name d); rewrite lookup_insert_ne by congruence; reflexivity.
Qed.

(** C3: when the name of descriptor [d] is already registered with entry
    [e], [add_device] leaves under that name an entry whose cloud handle is
    the one of [d] if [d] has one and the one of [e] otherwise, whose radio
    handle is the one of [d] if [d] has one and the one of [e] otherwise,
    and whose preference and name are those of [e]; the other entries are
    untouched. *)
Theorem add_device_replaces_only_supplied_handle
  (devices : gmap string MammotionMixedDeviceManager)
  (d e : MammotionMixedDeviceManager) :
  devices !! name d = Some e ->
  exists e', add_device devices d !! name d = Some e' /\
    _cloud_device e' = (if has_cloud d then _cloud_device d else _cloud_device e) /\
    _ble_device e' = (if has_ble d then _ble_device d else _ble_device e) /\
    preference e' = preference e /\
    name e' = name e /\
    forall n, n <> name d -> add_device devices d !! n = devices !! n.
Proof.
  intros H. unfold add_device. rewrite H.
  eexists. split; [apply lookup_insert_eq|].
  repeat split; try (destruct (has_cloud d), (has_ble d); reflexivity).
  intros n Hn. rewrite lookup_insert_ne by congruence. reflexivity.
Qed.

(** The scenario: the radio device "Luba-1" is registered, then a cloud
    descriptor of the same name: both handles are there and the preference
    is still the one of the radio registration. *)
Lemma add_device_replaces_only_supplied_handle_witness :
  exists e', add_device radio_registered cloud_descriptor !! "Luba-1" = Some e' /\
    _cloud_device e' = Some {| _mqtt := Some broker1; cloud_device := luba1 |} /\
    _ble_device e' = Some {| ble_device := luba1_ble |} /\
    preference e' = BLUETOOTH.
Proof.
  destruct (add_device_replaces_only_supplied_handle radio_registered cloud_descriptor
              (MammotionMixedDeviceManager_init "Luba-1" None (Some luba1_ble) None BLUETOOTH))
    as (e' & He & Hc & Hb & Hp & _); [reflexivity|].
  exists e'. repeat split; assumption.
Defined.

(** ... and a radio descriptor registered afterwards replaces the radio
    handle and leaves the cloud handle and the preference. *)
Example radio_after_cloud :
  add_device (add_device radio_registered cloud_descriptor) radio_descriptor !! "Luba-1"
  = Some {| name := "Luba-1";
            _ble_device := Some {| ble_device := {| ble_name := "Luba-1"; address := "CC:DD" |} |};
            _cloud_device := Some {| _mqtt := Some broker1; cloud_device := luba1 |};
            preference := BLUETOOTH |}.
Proof. vm_compute. reflexivity. Qed.

Lemma should_disconnect_nil (devices : gmap string MammotionMixedDeviceManager)
  (c : MammotionBaseCloudDevice) :
  should_disconnect devices c = [] <->
  forall n dev c', devices !! n = Some dev -> cloud dev = Some c' ->
    mqtt_eqb (_mqtt c') (_mqtt c) = false.
Proof.
  unfold should_disconnect. split.
  - intros Hnil n dev c' Hn Hc.
    destruct (mqtt_eqb (_mqtt c') (_mqtt c)) eqn:E; [|reflexivity].
    assert (Hin : In dev (List.filter
       (fun device => match cloud device with
                      | Some c0 => mqtt_eqb (_mqtt c0) (_mqtt c)
                      | None => false end) (snd <$> map_to_list devices))).
    { apply filter_In. split.
      - apply list_elem_of_In, list_elem_of_fmap. exists (n, dev). split; [reflexivity|].
        apply elem_of_map_to_list. exact Hn.
      - rewrite Hc. exact E. }
    rewrite Hnil in Hin. destruct Hin.
  - intros Hall.
    destruct (List.filter _ _) as [|x l] eqn:E; [reflexivity|].
    assert (Hin : In x (x :: l)) by (left; reflexivity).
    rewrite <- E in Hin. apply filter_In in Hin as [Hin Hp].
    apply list_elem_of_In, list_elem_of_fmap in Hin as ([n dev] & -> & Hin).
    apply elem_of_map_to_list in Hin. cbn in Hp.
    destruct (cloud dev) as [c'|] eqn:Ec; [|discriminate].
    rewrite (Hall n dev c' Hin Ec) in Hp. discriminate.
Qed.

(** C4: removing a registered device leaves the registry without its
    entry, whatever handles the entry has. For an entry without a cloud
    handle the call returns normally and calls no [disconnect]. For an entry
    whose cloud handle is bound to the broker connection [m] the call
    returns normally and calls [m.disconnect()] exactly when no other
    registered device is bound to the same broker connection object. For a
    cloud handle bound to no broker connection there is nothing to
    disconnect, and no [disconnect] is called. *)
Theorem remove_device_disconnects_unshared_broker
  (devices : gmap string MammotionMixedDeviceManager) (name : string)
  (dev : MammotionMixedDeviceManager) :
  devices !! name = Some dev ->
  exists evs r, remove_device devices name = (delete name devices, evs, r) /\
    match cloud dev with
    | None => evs = [] /\ r = Ok tt
    | Some c =>
        match _mqtt c with
        | Some m =>
            r = Ok tt /\
            (shared_with_other devices name m -> evs = []) /\
            (~ shared_with_other devices name m -> evs = [EvDisconnect m])
        | None => evs = []
        end
    end.
Proof.
  intros Hd. unfold remove_device. rewrite Hd.
  destruct (cloud dev) as [c|] eqn:Hc; [|exists [], (Ok tt); auto].
  destruct (_mqtt c) as [m|] eqn:Hm.
  - case_bool_decide as Hlen.
    + exists [EvDisconnect m], (Ok tt). split; [reflexivity|]. split; [reflexivity|].
      split; [|reflexivity].
      intros (n & dev' & c' & m' & Hn & Hl & Hc' & Hm' & Hid). exfalso.
      apply length_zero_iff_nil in Hlen.
      pose proof (proj1 (should_disconnect_nil _ _) Hlen n dev' c') as Hf.
      rewrite lookup_delete_ne in Hf by congruence. specialize (Hf Hl Hc').
      rewrite Hm', Hm in Hf. cbn in Hf. rewrite bool_decide_eq_true_2 in Hf by exact Hid.
      discriminate.
    + exists [], (Ok tt). split; [reflexivity|]. split; [reflexivity|].
      split; [reflexivity|].
      intros Hns. exfalso. apply Hlen. apply length_zero_iff_nil, should_disconnect_nil.
      intros n dev' c' Hl Hc'.
      destruct (mqtt_eqb (_mqtt c') (_mqtt c)) eqn:E; [|reflexivity].
      exfalso. apply Hns.
      destruct (decide (n = name)) as [->|Hne]; [rewrite lookup_delete_eq in Hl; discriminate|].
      rewrite lookup_delete_ne in Hl by congruence.
      rewrite Hm in E. destruct (_mqtt c') as [m'|] eqn:Em'; [|discriminate].
      cbn in E. apply bool_decide_eq_true in E.
      exists n, dev', c', m'. auto.
  - case_bool_decide as Hlen.
    + exists [], (Raise AttributeError). auto.
    + exists [], (Ok tt). auto.
Qed.

(** The scenario: two devices on one broker connection; removing the first
    leaves the connection open, removing the second closes it. And a device
    known by radio only is removed as well. *)
Lemma remove_device_disconnects_unshared_broker_witness :
  remove_device two_devices "Luba-1" = (delete "Luba-1" two_devices, [], Ok tt) /\
  remove_device (delete "Luba-1" two_devices) "Luba-2"
    = (delete "Luba-2" (delete "Luba-1" two_devices), [EvDisconnect broker1], Ok tt) /\
  remove_device radio_registered "Luba-1" = (delete "Luba-1" radio_registered, [], Ok tt).
Proof.
  split; [|split].
  - destruct (remove_device_disconnects_unshared_broker two_devices "Luba-1"
                (MammotionMixedDeviceManager_init "Luba-1" (Some luba1) None (Some broker1) WIFI))
      as (evs & r & Hr & Hcase); [reflexivity|].
    change (r = Ok tt /\
            (shared_with_other two_devices "Luba-1" broker1 -> evs = []) /\
            (~ shared_with_other two_devices "Luba-1" broker1 -> evs = [EvDisconnect broker1]))
      in Hcase.
    destruct Hcase as (Hok & Hs & _).
    rewrite Hr, Hok, Hs; [reflexivity|].
    exists "Luba-2",
      (MammotionMixedDeviceManager_init "Luba-2" (Some luba2) None (Some broker1) WIFI),
      {| _mqtt := Some broker1; cloud_device := luba2 |}, broker1.
    split; [discriminate|]. repeat split.
  - destruct (remove_device_disconnects_unshared_broker (delete "Luba-1" two_devices) "Luba-2"
                (MammotionMixedDeviceManager_init "Luba-2" (Some luba2) None (Some broker1) WIFI))
      as (evs & r & Hr & Hcase); [reflexivity|].
    change (r = Ok tt /\
            (shared_with_other (delete "Luba-1" two_devices) "Luba-2" broker1 -> evs = []) /\
            (~ shared_with_other (delete "Luba-1" two_devices) "Luba-2" broker1 ->
             evs = [EvDisconnect broker1]))
      in Hcase.
    destruct Hcase as (Hok & _ & Hn).
    rewrite Hr, Hok, Hn; [reflexivity|].
    intros (n & dev & c & m' & Hne & Hl & _).
    destruct (decide (n = "Luba-1")) as [->|H1]; [vm_compute in Hl; discriminate|].
    unfold two_devices in Hl.
    rewrite lookup_delete_ne, !add_device_lookup_ne, lookup_empty in Hl by (cbn; congruence).
    discriminate.
  - destruct (remove_device_disconnects_unshared_broker radio_registered "Luba-1"
                (MammotionMixedDeviceManager_init "Luba-1" None (Some luba1_ble) None BLUETOOTH))
      as (evs & r & Hr & Hcase); [reflexivity|].
    change (evs = [] /\ r = Ok tt) in Hcase. destruct Hcase as [He Hok].
    rewrite Hr, He, Hok. reflexivity.
Defined.

(** Removing a name that is not registered raises [KeyError]. *)
Lemma remove_device_unknown (devices : gmap string MammotionMixedDeviceManager)
  (name : string) :
  devices !! name = None -> remove_device devices name = (devices, [], Raise KeyError).
Proof. intros H. unfold remove_device. rewrite H. reflexivity. Qed.

(** ** Reconciliation *)

Lemma mqtt_eqb_refl (m : MammotionCloud) : mqtt_eqb (Some m) (Some m) = true.
Proof. cbn. apply bool_decide_eq_true_2. reflexivity. Qed.

Lemma add_cloud_devices_body_eq (m : MammotionCloud)
  (devices : gmap string MammotionMixedDeviceManager) (device : Device) :
  add_cloud_devices_body m devices device =
  Ok (if recognized_name (deviceName device)
      then <[deviceName device := reconciled m device (devices !! deviceName device)]> devices
      else devices).
Proof.
  unfold add_cloud_devices_body, get_device.
  destruct (devices !! deviceName device) as [e|] eqn:E;
    destruct (recognized_name (deviceName device)); try reflexivity.
  - destruct e as [n b [[mq cd]|] p]; unfold cloud, replace_mqtt, reconciled;
      cbn [_cloud_device _mqtt cloud_device name _ble_device preference]; [|reflexivity].
    destruct (mqtt_eqb (Some m) mq) eqn:Em; cbn [negb]; [|reflexivity].
    f_equal. symmetry. apply insert_id. exact E.
  - unfold add_device. cbn. rewrite E. reflexivity.
Qed.

(** A second pass over a reconciled entry changes nothing. *)
Lemma reconciled_idem (m : MammotionCloud) (d1 d2 : Device)
  (o : option MammotionMixedDeviceManager) :
  reconciled m d2 (Some (reconciled m d1 o)) = reconciled m d1 o.
Proof.
  destruct o as [[n b [[mq cd]|] p]|]; unfold reconciled;
    cbn [_cloud_device _mqtt cloud_device name _ble_device preference];
    rewrite ?mqtt_eqb_refl; try reflexivity.
  destruct (mqtt_eqb (Some m) mq) eqn:E; [rewrite E|rewrite mqtt_eqb_refl]; reflexivity.
Qed.

Lemma add_cloud_devices_loop_eq (m : MammotionCloud) (l : list Device) :
  forall devices : gmap string MammotionMixedDeviceManager,
  exists d', add_cloud_devices_loop m l devices = Ok d' /\
    forall n, d' !! n =
      match first_recognized l n with
      | Some device => Some (reconciled m device (devices !! n))
      | None => devices !! n
      end.
Proof.
  induction l as [|device l IH]; intros devices.
  - exists devices. split; [reflexivity|]. intros n. reflexivity.
  - cbn [add_cloud_devices_loop]. rewrite add_cloud_devices_body_eq, bind_Ok.
    destruct (IH (if recognized_name (deviceName device)
                  then <[deviceName device :=
                           reconciled m device (devices !! deviceName device)]> devices
                  else devices)) as (d' & Hd' & Hl).
    exists d'. split; [exact Hd'|]. intros n. rewrite Hl.
    unfold first_recognized. cbn [List.find].
    destruct (recognized_name (deviceName device)) eqn:Hrec; cbn [andb]; [|reflexivity].
    case_bool_decide as Hn.
    + subst n. rewrite lookup_insert_eq.
      destruct (List.find _ l) as [d2|]; [|reflexivity].
      rewrite reconciled_idem. reflexivity.
    + rewrite lookup_insert_ne by exact Hn. reflexivity.
Qed.

(** [add_cloud_devices] never raises. *)
Lemma add_cloud_devices_eq (m : MammotionCloud) (w : world) :
  exists d', add_cloud_devices m w = (Ok tt, set_devices d' w) /\
    forall n, d' !! n =
      match first_recognized (devices_by_account_response (cloud_client m)) n with
      | Some device => Some (reconciled m device (devices w !! n))
      | None => devices w !! n
      end.
Proof.
  destruct (add_cloud_devices_loop_eq m (devices_by_account_response (cloud_client m))
              (devices w)) as (d' & Hd' & Hl).
  exists d'. unfold add_cloud_devices. rewrite Hd'. auto.
Qed.

Lemma first_recognized_Some (l : list Device) (n : string) (dv : Device) :
  first_recognized l n = Some dv ->
  dv ∈ l /\ deviceName dv = n /\ recognized_name n = true.
Proof.
  unfold first_recognized. intros H. apply find_some in H as [Hin Hp].
  apply andb_true_iff in Hp as [Hr Hn]. apply bool_decide_eq_true in Hn. subst n.
  split; [apply list_elem_of_In; exact Hin|]. auto.
Qed.

Lemma first_recognized_None (l : list Device) (n : string) :
  first_recognized l n = None ->
  recognized_name n = false \/ n ∉ deviceName <$> l.
Proof.
  unfold first_recognized. intros H.
  destruct (recognized_name n) eqn:Hr; [right|left; reflexivity].
  intros Hin. apply list_elem_of_fmap in Hin as (dv & -> & Hin).
  apply list_elem_of_In in Hin.
  pose proof (find_none _ _ H dv Hin) as Hf. cbn in Hf.
  rewrite Hr, bool_decide_eq_true_2 in Hf by reflexivity. discriminate.
Qed.

(** C7: [add_cloud_devices] for the broker connection [m] returns normally
    with a registry [d'] such that, for every device of the account's
    device list whose name starts with "Luba-" or "Yuka-": the name is
    registered in [d']; if it was not registered before, the entry has a
    cloud handle bound to [m] for a descriptor [dv] of that name from the
    list, no radio handle and WIFI preference; if it was registered
    without a cloud handle, such a cloud handle is attached and the rest of
    the entry is kept; if it was registered with a cloud handle, the handle
    is bound to [m] when it was bound to another broker connection object
    and is left as it was otherwise. A name that has no recognized prefix,
    or that is not in the device list, has in [d'] what it had before. *)
Theorem reconciliation_binds_recognized_devices (m : MammotionCloud) (w : world) :
  exists d', add_cloud_devices m w = (Ok tt, set_devices d' w) /\
    (forall device,
       device ∈ devices_by_account_response (cloud_client m) ->
       recognized_name (deviceName device) = true ->
       exists dv e',
         dv ∈ devices_by_account_response (cloud_client m) /\
         deviceName dv = deviceName device /\
         d' !! deviceName device = Some e' /\
         match devices w !! deviceName device with
         | None =>
             e' = {| name := deviceName device; _ble_device := None;
                     _cloud_device := Some {| _mqtt := Some m; cloud_device := dv |};
                     preference := WIFI |}
         | Some e =>
             name e' = name e /\ _ble_device e' = _ble_device e /\
             preference e' = preference e /\
             match _cloud_device e with
             | None => _cloud_device e' = Some {| _mqtt := Some m; cloud_device := dv |}
             | Some c =>
                 _cloud_device e' =
                   Some {| _mqtt := if mqtt_eqb (Some m) (_mqtt c) then _mqtt c else Some m;
                           cloud_device := cloud_device c |}
             end
         end) /\
    (forall n, recognized_name n = false -> d' !! n = devices w !! n) /\
    (forall n, n ∉ deviceName <$> devices_by_account_response (cloud_client m) ->
       d' !! n = devices w !! n).
Proof.
  destruct (add_cloud_devices_eq m w) as (d' & Hd' & Hl).
  exists d'. split; [exact Hd'|]. split; [|split].
  - intros device Hin Hrec. specialize (Hl (deviceName device)).
    destruct (first_recognized _ _) as [dv|] eqn:Ef.
    + apply first_recognized_Some in Ef as (Hdv & Hname & _).
      exists dv, (reconciled m dv (devices w !! deviceName device)).
      split; [exact Hdv|]. split; [exact Hname|]. split; [exact Hl|].
      destruct (devices w !! deviceName device) as [e|]; cbn.
      * repeat split. destruct (_cloud_device e); reflexivity.
      * rewrite Hname. reflexivity.
    + apply first_recognized_None in Ef as [Ef|Ef]; [congruence|].
      exfalso. apply Ef. apply list_elem_of_fmap. exists device. auto.
  - intros n Hn. rewrite Hl.
    destruct (first_recognized _ _) as [dv|] eqn:Ef; [|reflexivity].
    apply first_recognized_Some in Ef as (_ & _ & Hr). congruence.
  - intros n Hn. rewrite Hl.
    destruct (first_recognized _ _) as [dv|] eqn:Ef; [|reflexivity].
    apply first_recognized_Some in Ef as (Hin & Hname & _).
    exfalso. apply Hn. apply list_elem_of_fmap. exists dv. auto.
Qed.

(** The scenario: "Luba-1" is known by radio only and gets a cloud handle,
    "Luba-2" is bound to another broker connection and is rebound, "RTK-7"
    has no recognized prefix and stays out of the registry. *)
Lemma reconciliation_binds_recognized_devices_witness :
  exists d', add_cloud_devices broker2 before_reconciliation
             = (Ok tt, set_devices d' before_reconciliation) /\
    (exists e', d' !! "Luba-2" = Some e' /\
       _cloud_device e' = Some {| _mqtt := Some broker2; cloud_device := luba2 |}) /\
    (exists e', d' !! "Luba-1" = Some e' /\
       _cloud_device e' = Some {| _mqtt := Some broker2; cloud_device := luba1 |} /\
       _ble_device e' = Some {| ble_device := luba1_ble |} /\ preference e' = BLUETOOTH) /\
    d' !! "RTK-7" = None.
Proof.
  destruct (reconciliation_binds_recognized_devices broker2 before_reconciliation)
    as (d' & Hd & Hrec & Hun & _).
  exists d'. split; [exact Hd|]. split; [|split].
  - destruct (Hrec luba2) as (dv & e' & _ & _ & He & Hm).
    { apply list_elem_of_In. cbn. auto. }
    { reflexivity. }
    exists e'. split; [exact He|].
    change (devices before_reconciliation !! deviceName luba2)
      with (Some {| name := "Luba-2"; _ble_device := None;
                    _cloud_device := Some {| _mqtt := Some broker1; cloud_device := luba2 |};
                    preference := WIFI |}) in Hm.
    destruct Hm as (_ & _ & _ & Hc). exact Hc.
  - destruct (Hrec luba1) as (dv & e' & Hdv & Hname & He & Hm).
    { apply list_elem_of_In. cbn. auto. }
    { reflexivity. }
    exists e'. split; [exact He|].
    change (devices before_reconciliation !! deviceName luba1)
      with (Some (MammotionMixedDeviceManager_init "Luba-1" None (Some luba1_ble) None BLUETOOTH))
      in Hm.
    destruct Hm as (_ & Hb & Hp & Hc). split; [|split; assumption].
    rewrite Hc. f_equal. f_equal.
    apply list_elem_of_In in Hdv. cbn in Hdv, Hname.
    destruct Hdv as [<-|[<-|[<-|[]]]]; [reflexivity|discriminate|discriminate].
  - rewrite Hun by reflexivity. reflexivity.
Defined.

(** ** Login and connection *)

Lemma logins_app (a b : list event) : logins (a ++ b) = (logins a + logins b)%nat.
Proof. unfold logins. rewrite List.filter_app, length_app. reflexivity. Qed.

Lemma brokers_created_app (a b : list event) :
  brokers_created (a ++ b) = (brokers_created a + brokers_created b)%nat.
Proof. unfold brokers_created. rewrite List.filter_app, length_app. reflexivity. Qed.

(** The test of line 174 succeeds on every stored session. *)
Lemma is_connected_truthy (w : world) (m : MammotionCloud) : is_connected w m = true.
Proof. reflexivity. Qed.

(** The connection step with a stored session. *)
Lemma initiate_start_connected (account : string) (c : CloudIOTGateway) (w : world)
  (m : MammotionCloud) :
  mqtt_list w !! account = Some m ->
  is_connected w m = true ->
  exists d', add_cloud_devices m w = (Ok tt, set_devices d' w) /\
    initiate_cloud_connection_start account c w = (Ok None, set_devices d' w).
Proof.
  intros Hs Hc. destruct (add_cloud_devices_eq m w) as (d' & Hd' & _).
  exists d'. split; [exact Hd'|].
  unfold initiate_cloud_connection_start. rewrite Hs, Hc, M_bind_eq, Hd'. reflexivity.
Qed.

(** The connection step without a session: a new broker connection object
    is constructed, stored and handed to the executor. *)
Lemma initiate_start_new (account : string) (c : CloudIOTGateway) (w : world) :
  mqtt_list w !! account = None ->
  let m := {| mqtt_id := next_mqtt_id w; cloud_client := c |} in
  exists w', initiate_cloud_connection_start account c w = (Ok (Some m), w') /\
    trace w' = (trace w ++ [EvNewMqtt m])%list /\
    mqtt_list w' = <[account := m]> (mqtt_list w) /\
    connected w' = connected w.
Proof.
  intros Hs m.
  set (w1 := {| devices := devices w; mqtt_list := <[account := m]> (mqtt_list w);
                self_cloud_client := Some c; connected := connected w;
                next_mqtt_id := Pos.succ (next_mqtt_id w);
                trace := trace w ++ [EvNewMqtt m] |}).
  destruct (add_cloud_devices_eq m w1) as (d' & Hd' & _).
  exists (set_devices d' w1). split; [|auto].
  unfold initiate_cloud_connection_start.
  rewrite Hs. rewrite M_bind_eq. cbn [MammotionCloud_init].
  rewrite M_bind_eq. cbn [devices mqtt_list self_cloud_client connected next_mqtt_id trace].
  rewrite M_bind_eq. fold m. fold w1. rewrite Hd'. reflexivity.
Qed.

Section Login.
Variable login_exchange : string -> string -> py_result CloudIOTGateway.
Variable connect_async : MammotionCloud -> py_result unit.

(** The connection step performs no login exchange. *)
Lemma initiate_cloud_connection_no_login (account : string) (c : CloudIOTGateway) (w : world) :
  logins (trace (initiate_cloud_connection connect_async account c w).2) = logins (trace w).
Proof.
  unfold initiate_cloud_connection. rewrite M_bind_eq.
  destruct (mqtt_list w !! account) as [m|] eqn:Hs.
  - destruct (initiate_start_connected account c w m Hs (is_connected_truthy w m))
      as (d' & _ & ->). reflexivity.
  - destruct (initiate_start_new account c w Hs) as (w' & -> & Ht & _).
    unfold run_in_executor_connect_async, add_event. cbn [snd trace].
    rewrite Ht, !logins_app. cbn. lia.
Qed.

(** C5: (1) with a session stored for the account and [force] false, the
    call is the connection step on the stored session's cloud context, and
    it performs no login exchange; (2) with no session, or with [force]
    true, the call is a login exchange followed by the connection step on
    its result, and the trace counts one more login; (3) in the connection
    step, when the session's broker connection reports connected, the
    device reconciliation runs on it and the step returns: no broker
    connection object is constructed, nothing is handed to the executor,
    and the sessions are as before. *)
Theorem login_reuses_session_and_connected_broker
  (w : world) (account password : string) :
  (forall e, mqtt_list w !! account = Some e ->
     login_and_initiate_cloud login_exchange connect_async account password false w
       = initiate_cloud_connection connect_async account (cloud_client e) w /\
     logins (trace (login_and_initiate_cloud login_exchange connect_async
                      account password false w).2) = logins (trace w)) /\
  (forall force, mqtt_list w !! account = None \/ force = true ->
     login_and_initiate_cloud login_exchange connect_async account password force w
       = (login login_exchange account password
            ≫= initiate_cloud_connection connect_async account) w /\
     logins (trace (login_and_initiate_cloud login_exchange connect_async
                      account password force w).2) = S (logins (trace w))) /\
  (forall m c, mqtt_list w !! account = Some m -> is_connected w m = true ->
     exists d' w',
       add_cloud_devices m w = (Ok tt, set_devices d' w) /\
       initiate_cloud_connection connect_async account c w = (Ok tt, w') /\
       devices w' = d' /\ trace w' = trace w /\ mqtt_list w' = mqtt_list w).
Proof.
  split; [|split].
  - intros e He.
    assert (Heq : login_and_initiate_cloud login_exchange connect_async account password false w
                  = initiate_cloud_connection connect_async account (cloud_client e) w).
    { unfold login_and_initiate_cloud. rewrite He, M_bind_eq. reflexivity. }
    split; [exact Heq|]. rewrite Heq. apply initiate_cloud_connection_no_login.
  - intros force Hf.
    assert (Heq : login_and_initiate_cloud login_exchange connect_async account password force w
                  = (login login_exchange account password
                       ≫= initiate_cloud_connection connect_async account) w).
    { unfold login_and_initiate_cloud.
      destruct (mqtt_list w !! account) as [e|]; [|reflexivity].
      destruct Hf as [Hf|Hf]; [discriminate|rewrite Hf; reflexivity]. }
    split; [exact Heq|]. rewrite Heq, M_bind_eq. unfold login.
    destruct (login_exchange account password) as [c|e].
    + rewrite initiate_cloud_connection_no_login. unfold add_event. cbn [trace].
      rewrite logins_app. cbn. lia.
    + unfold add_event. cbn [snd trace]. rewrite logins_app. cbn. lia.
  - intros m c Hs Hc. destruct (initiate_start_connected account c w m Hs Hc) as (d' & Hd' & Hi).
    exists d', (set_devices d' w). split; [exact Hd'|]. unfold initiate_cloud_connection.
    rewrite M_bind_eq, Hi. auto.
Qed.

End Login.

(** A session exists and reports connected: the call with [force] left
    false performs no login, constructs no broker connection and returns. *)
Lemma login_reuses_session_and_connected_broker_witness :
  exists w',
    login_and_initiate_cloud (fun _ _ => Ok gateway) (fun _ => Ok tt)
      "user@example.org" "secret" false session_world = (Ok tt, w') /\
    trace w' = [] /\ mqtt_list w' = mqtt_list session_world.
Proof.
  destruct (login_reuses_session_and_connected_broker (fun _ _ => Ok gateway) (fun _ => Ok tt)
              session_world "user@example.org" "secret") as (Hreuse & _ & Hconn).
  destruct (Hreuse broker1) as [Heq _]; [reflexivity|].
  destruct (Hconn broker1 (cloud_client broker1)) as (d' & w' & _ & Hi & _ & Ht & Hm);
    [reflexivity|reflexivity|].
  exists w'. rewrite Heq. split; [exact Hi|]. split; [exact Ht|exact Hm].
Defined.

(** ** The coroutines of [login_and_initiate_cloud] *)

Lemma set_connected_same (w : world) (m : MammotionCloud) :
  set_connected (mqtt_id m) (bool_decide (mqtt_id m ∈ connected w)) w = w.
Proof.
  unfold set_connected. destruct w as [d ml cc conn nx tr]. cbn.
  f_equal. destruct (bool_decide (mqtt_id m ∈ conn)) eqn:E;
    [apply bool_decide_eq_true in E|apply bool_decide_eq_false in E].
  - apply subseteq_union_1_L, singleton_subseteq_l. exact E.
  - apply difference_disjoint_L, disjoint_singleton_r. exact E.
Qed.

Section OneTask.
Variable login_exchange : string -> string -> py_result CloudIOTGateway.
Variable connect_async : MammotionCloud -> py_result unit.

(** The connection step of a lone task, followed by the executor's answer,
    is [initiate_cloud_connection]. *)
Lemma connection_step_sequential (account : string) (c : CloudIOTGateway)
  (w : world) (t : coroutine) (b : bool) :
  exists ls,
    run ls (connection_step 0 account c {| shared := w; _login_lock := b; tasks := [t] |})
    = Some {| shared := (initiate_cloud_connection connect_async account c w).2;
              _login_lock := false;
              tasks := [Finished (initiate_cloud_connection connect_async account c w).1] |}.
Proof.
  unfold connection_step, initiate_cloud_connection. rewrite M_bind_eq. cbn [shared].
  destruct (initiate_cloud_connection_start account c w) as [[[m|]|e] w'].
  - exists [ConnectDone 0 (connect_async m)
              (bool_decide (mqtt_id m ∈ connected (add_event (EvConnect m) w')))].
    cbn. change (connected w') with (connected (add_event (EvConnect m) w')).
    rewrite set_connected_same. reflexivity.
  - exists []. reflexivity.
  - exists []. reflexivity.
Qed.

(** A lone call under the scheduler does what [login_and_initiate_cloud]
    does: the task system and the sequential reading are the same code. *)
Lemma one_task_is_the_sequential_call (account password : string) (force : bool) (w : world) :
  exists ls,
    run ls {| shared := w; _login_lock := false; tasks := [AtEntry account password force] |}
    = Some
      {| shared := (login_and_initiate_cloud login_exchange connect_async
                      account password force w).2;
         _login_lock := false;
         tasks := [Finished (login_and_initiate_cloud login_exchange connect_async
                               account password force w).1] |}.
Proof.
  assert (Hlogin :
    exists ls,
      run ls {| shared := add_event (EvLogin account password) w; _login_lock := true;
                tasks := [AwaitLogin account] |}
      = Some
        {| shared := ((login login_exchange account password
                         ≫= initiate_cloud_connection connect_async account) w).2;
           _login_lock := false;
           tasks := [Finished ((login login_exchange account password
                         ≫= initiate_cloud_connection connect_async account) w).1] |}).
  { rewrite M_bind_eq. unfold login.
    destruct (login_exchange account password) as [c|e] eqn:El.
    - destruct (connection_step_sequential account c (add_event (EvLogin account password) w)
                  (AwaitLogin account) true) as (ls & Hls).
      exists (LoginDone 0 (Ok c) :: ls). exact Hls.
    - exists [LoginDone 0 (Raise e)]. reflexivity. }
  unfold login_and_initiate_cloud.
  destruct (mqtt_list w !! account) as [e|] eqn:Hs; [destruct force|].
  - destruct Hlogin as (ls & Hls). exists (Enter 0 :: ls). cbn. rewrite Hs. exact Hls.
  - destruct (connection_step_sequential account (cloud_client e) w
                (AtEntry account password false) false) as (ls & Hls).
    exists (Enter 0 :: ls). cbn [run sys_step tasks _login_lock shared]. cbn [lookup list_lookup].
    rewrite Hs. rewrite M_bind_eq. exact Hls.
  - destruct Hlogin as (ls & Hls). exists (Enter 0 :: ls). cbn. rewrite Hs. exact Hls.
Qed.

End OneTask.

Lemma count_insert (P : coroutine -> bool) (l : list coroutine) :
  forall (i : nat) (t t' : coroutine),
  l !! i = Some t ->
  (count_tasks P (<[i:=t']> l) + b2n (P t) = count_tasks P l + b2n (P t'))%nat.
Proof.
  unfold count_tasks. induction l as [|x l IH]; intros i t t' Hl; [discriminate|].
  destruct i as [|i]; cbn in Hl.
  - injection Hl as Hx. subst x. cbn. destruct (P t), (P t'); cbn; lia.
  - specialize (IH i t t' Hl). change (<[S i:=t']> (x :: l)) with (x :: <[i:=t']> l).
    cbn [List.filter]. destruct (P x); cbn [length]; lia.
Qed.

Lemma count_zero_lookup (P : coroutine -> bool) (l : list coroutine) :
  forall (i : nat) (t : coroutine),
  count_tasks P l = 0%nat -> l !! i = Some t -> P t = false.
Proof.
  unfold count_tasks. induction l as [|x l IH]; intros i t Hc Hl; [discriminate|].
  cbn in Hc. destruct (P x) eqn:E; [discriminate|].
  destruct i as [|i]; cbn in Hl.
  - injection Hl as Hx. subst x. exact E.
  - eapply IH; eassumption.
Qed.

Lemma count_replicate_AtEntry (P : coroutine -> bool) (n : nat) (a p : string) (f : bool) :
  P (AtEntry a p f) = false -> count_tasks P (replicate n (AtEntry a p f)) = 0%nat.
Proof.
  intros H. unfold count_tasks. induction n as [|n IH]; [reflexivity|].
  cbn. rewrite H. exact IH.
Qed.

Lemma count_inside (l : list coroutine) :
  count_tasks inside l = (count_tasks awaits_login l + count_tasks awaits_connect l)%nat.
Proof.
  unfold count_tasks. induction l as [|x l IH]; [reflexivity|].
  destruct x; cbn; lia.
Qed.

(** *** The lock excludes, whatever the outside world does *)

Lemma leave_lock_inv (i : nat) (r : py_result unit) (w : world) (s : system) (t : coroutine) :
  tasks s !! i = Some t ->
  (count_tasks inside (tasks s) = b2n (inside t)) ->
  lock_inv (leave i r w s).
Proof.
  intros Hl Hc. right. split; [reflexivity|]. cbn [leave tasks].
  pose proof (count_insert inside (tasks s) i t (Finished r) Hl) as H. cbn in H. lia.
Qed.

Lemma connection_step_lock_inv (i : nat) (a : string) (c : CloudIOTGateway) (s : system)
  (t : coroutine) :
  tasks s !! i = Some t ->
  (count_tasks inside (tasks s) = b2n (inside t)) ->
  lock_inv (connection_step i a c s).
Proof.
  intros Hl Hc. unfold connection_step.
  destruct (initiate_cloud_connection_start a c (shared s)) as [[[m|]|e] w'];
    try (eapply leave_lock_inv; eassumption).
  left. split; [reflexivity|]. cbn [tasks].
  pose proof (count_insert inside (tasks s) i t (AwaitConnect a m) Hl) as H. cbn in H. lia.
Qed.

Lemma inside_holds_lock (s : system) (i : nat) (t : coroutine) :
  lock_inv s -> tasks s !! i = Some t -> inside t = true ->
  count_tasks inside (tasks s) = 1%nat.
Proof.
  intros [[_ H]|[_ H]] Hl Hi; [exact H|].
  rewrite (count_zero_lookup inside _ _ _ H Hl) in Hi. discriminate.
Qed.

Lemma sys_step_lock_inv (l : label) (s s' : system) :
  lock_inv s -> sys_step l s = Some s' -> lock_inv s'.
Proof.
  intros Hinv Hstep. destruct l as [i|i r|i r b|m b]; cbn in Hstep.
  - destruct (tasks s !! i) as [[a p f| | |]|] eqn:Hl; try discriminate.
    destruct (_login_lock s) eqn:Hlock; [discriminate|].
    destruct Hinv as [[Ht _]|[_ Hc]]; [congruence|].
    assert (Hstart : lock_inv {| shared := add_event (EvLogin a p) (shared s);
                                 _login_lock := true;
                                 tasks := <[i:=AwaitLogin a]> (tasks s) |}).
    { left. split; [reflexivity|]. cbn [tasks].
      pose proof (count_insert inside (tasks s) i _ (AwaitLogin a) Hl) as H. cbn in H. lia. }
    destruct (mqtt_list (shared s) !! a) as [e|]; [destruct f|];
      injection Hstep as <-; try exact Hstart.
    eapply connection_step_lock_inv; [exact Hl|]. exact Hc.
  - destruct (tasks s !! i) as [[| a | |]|] eqn:Hl; try discriminate.
    pose proof (inside_holds_lock s i _ Hinv Hl eq_refl) as Hc.
    destruct r as [c|e]; injection Hstep as <-.
    + eapply connection_step_lock_inv; [exact Hl|]. exact Hc.
    + eapply leave_lock_inv; [exact Hl|]. exact Hc.
  - destruct (tasks s !! i) as [[| | a m |]|] eqn:Hl; try discriminate.
    pose proof (inside_holds_lock s i _ Hinv Hl eq_refl) as Hc.
    injection Hstep as <-. eapply leave_lock_inv; [exact Hl|]. exact Hc.
  - injection Hstep as <-. exact Hinv.
Qed.

Lemma run_lock_inv (ls : list label) :
  forall s s', lock_inv s -> run ls s = Some s' -> lock_inv s'.
Proof.
  induction ls as [|l ls IH]; intros s s' Hinv Hrun; cbn in Hrun.
  - injection Hrun as <-. exact Hinv.
  - destruct (sys_step l s) as [s1|] eqn:Hs; [|discriminate].
    eapply IH; [|exact Hrun]. eapply sys_step_lock_inv; eassumption.
Qed.

Lemma start_lock_inv (n : nat) (a p : string) (w : world) : lock_inv (start n a p w).
Proof. right. split; [reflexivity|]. apply count_replicate_AtEntry. reflexivity. Qed.

(** *** The connection step of a task *)


(** *** One broker connection object at most, whatever the outside world does *)





(** *** Login dedup, when every login exchange succeeds *)




Section Dedup.
Variables (account : string) (n l0 b0 : nat).




End Dedup.




End MammotionFacts.

(** * Further properties of hash_list.py *)

Module HashListMore.
Import HashListModel HashListFacts.

Lemma extended_step (o : option FrameList) (f : NavGetCommDataAck) (m : list NavGetCommDataAck)
  (d : gmap Z FrameList) :
  d !! hash f = o ->
  extended (Some (appended d f)) m = extended o (f :: m).
Proof.
  intros <-. unfold appended. destruct (d !! hash f) as [fl|]; cbn.
  - rewrite <- app_assoc. reflexivity.
  - reflexivity.
Qed.

Lemma extended_nil (o : option FrameList) : extended o [] = o.
Proof. destruct o as [[t d]|]; cbn; [rewrite app_nil_r|]; reflexivity. Qed.

Lemma update_all_extends (l : list NavGetCommDataAck) :
  forall (hl : HashList) (c h : Z),
  recognized c = true ->
  exists hl', update_all hl l = Ok hl' /\
    mapping c hl' !! h = extended (mapping c hl !! h) (matching c h l).
Proof.
  induction l as [|f l IH]; intros hl c h Hrec.
  - exists hl. split; [reflexivity|]. cbn. rewrite extended_nil. reflexivity.
  - destruct (update_eq hl f) as (hl1 & Hu & Hm).
    destruct (IH hl1 c h Hrec) as (hl' & Hall & Hl').
    exists hl'. rewrite update_all_cons, Hu, bind_Ok. split; [exact Hall|].
    rewrite Hl', Hm, Hrec, andb_true_r. unfold matching. cbn [List.filter].
    destruct (decide (c = type f)) as [->|Hc].
    + rewrite !bool_decide_eq_true_2 by reflexivity. cbn [andb].
      destruct (decide (hash f = h)) as [<-|Hh].
      * rewrite bool_decide_eq_true_2 by reflexivity. rewrite lookup_insert_eq.
        apply extended_step. reflexivity.
      * rewrite bool_decide_eq_false_2 by exact Hh. rewrite lookup_insert_ne by exact Hh.
        reflexivity.
    + rewrite (bool_decide_eq_false_2 (c = type f)) by exact Hc.
      rewrite (bool_decide_eq_false_2 (type f = c)) by congruence. reflexivity.
Qed.

(** X1: after any sequence [l] of fragments is ingested into the empty
    store, the mapping of a recognized category [c] has a FrameSet under
    hash [h] exactly when [l] has a fragment of that category and hash; its
    [total_frame] is the one of the first such fragment, and its sequence
    is that first fragment followed by all such fragments of [l] in the
    order of ingestion (so the first one is there twice). *)
Theorem store_holds_first_fragment_twice (l : list NavGetCommDataAck) (c h : Z) :
  recognized c = true ->
  exists hl, update_all empty_HashList l = Ok hl /\
    mapping c hl !! h =
      match matching c h l with
      | [] => None
      | f :: m => Some {| fl_total_frame := total_frame f; data := f :: f :: m |}
      end.
Proof.
  intros Hrec. destruct (update_all_extends l empty_HashList c h Hrec) as (hl & Hall & Hl).
  exists hl. split; [exact Hall|]. rewrite Hl.
  assert (He : mapping c empty_HashList !! h = None).
  { unfold mapping. cbn. repeat case_bool_decide; apply lookup_empty. }
  rewrite He. reflexivity.
Qed.

Lemma store_holds_first_fragment_twice_witness :
  exists hl, update_all empty_HashList [fragA; fragX; fragB; fragA] = Ok hl /\
    mapping 0 hl !! 1 =
      Some {| fl_total_frame := 3; data := [fragA; fragA; fragB; fragA] |}.
Proof.
  apply (store_holds_first_fragment_twice [fragA; fragX; fragB; fragA] 0 1). reflexivity.
Defined.

Lemma HashList_eq (a b : HashList) :
  (forall c, mapping c a = mapping c b) -> a = b.
Proof.
  intros H. pose proof (H 0) as H0. pose proof (H 1) as H1. pose proof (H 2) as H2.
  change (area a = area b) in H0. change (obstacle a = obstacle b) in H1.
  change (path a = path b) in H2. destruct a, b. cbn in *. congruence.
Qed.

Lemma appended_insert_ne (d : gmap Z FrameList) (f g : NavGetCommDataAck) (x : FrameList) :
  hash f <> hash g -> appended (<[hash g := x]> d) f = appended d f.
Proof. intros H. unfold appended. rewrite lookup_insert_ne by congruence. reflexivity. Qed.

(** X2: two ingests that differ in category or in hash commute: the store
    is the same whichever fragment is ingested first. *)
Theorem ingests_of_distinct_framesets_commute (hl : HashList) (f g : NavGetCommDataAck) :
  type f <> type g \/ hash f <> hash g ->
  (update hl f ≫= fun hl => update hl g) = (update hl g ≫= fun hl => update hl f).
Proof.
  intros Hne.
  destruct (update_eq hl f) as (hf & Hf & Hmf). destruct (update_eq hf g) as (hfg & Hfg & Hmfg).
  destruct (update_eq hl g) as (hg & Hg & Hmg). destruct (update_eq hg f) as (hgf & Hgf & Hmgf).
  rewrite Hf, Hg, !bind_Ok, Hfg, Hgf. f_equal. apply HashList_eq. intros c.
  rewrite Hmfg, Hmgf, Hmf, Hmg.
  destruct (bool_decide (c = type g) && recognized c) eqn:Eg;
    destruct (bool_decide (c = type f) && recognized c) eqn:Ef; try reflexivity.
  apply andb_true_iff in Eg as [Eg _]. apply andb_true_iff in Ef as [Ef _].
  apply bool_decide_eq_true in Eg. apply bool_decide_eq_true in Ef.
  destruct Hne as [Hne|Hne]; [congruence|].
  rewrite !appended_insert_ne by congruence.
  apply insert_insert_ne. congruence.
Qed.

Lemma ingests_of_distinct_framesets_commute_witness :
  (update empty_HashList fragA ≫= fun hl => update hl fragX)
  = (update empty_HashList fragX ≫= fun hl => update hl fragA).
Proof.
  apply (ingests_of_distinct_framesets_commute empty_HashList fragA fragX).
  left. discriminate.
Defined.

(** X3: an ingest only appends: the sequence of every FrameSet stored
    before is a prefix of its sequence afterwards, no FrameSet disappears,
    and for a recognized category the ingested fragment is the last one of
    the FrameSet under its hash. *)
Theorem ingest_only_appends (hl : HashList) (f : NavGetCommDataAck) :
  exists hl', update hl f = Ok hl' /\
    (forall c h fl, mapping c hl !! h = Some fl ->
       exists fl', mapping c hl' !! h = Some fl' /\ data fl `prefix_of` data fl') /\
    (forall c h, mapping c hl' !! h = None -> mapping c hl !! h = None) /\
    (recognized (type f) = true ->
     exists fl', mapping (type f) hl' !! hash f = Some fl' /\ last (data fl') = Some f).
Proof.
  destruct (update_eq hl f) as (hl' & Hu & Hm). exists hl'. split; [exact Hu|].
  split; [|split].
  - intros c h fl Hl. rewrite Hm.
    destruct (bool_decide (c = type f) && recognized c);
      [|exists fl; split; [exact Hl|reflexivity]].
    destruct (decide (h = hash f)) as [->|Hne].
    + rewrite lookup_insert_eq. eexists. split; [reflexivity|].
      unfold appended. rewrite Hl. cbn. apply prefix_app_r. reflexivity.
    + rewrite lookup_insert_ne by congruence. exists fl. split; [exact Hl|reflexivity].
  - intros c h. rewrite Hm.
    destruct (bool_decide (c = type f) && recognized c); [|auto].
    destruct (decide (h = hash f)) as [->|Hne].
    + rewrite lookup_insert_eq. discriminate.
    + rewrite lookup_insert_ne by congruence. auto.
  - intros Hrec. rewrite Hm, Hrec, bool_decide_eq_true_2 by reflexivity. cbn [andb].
    rewrite lookup_insert_eq. eexists. split; [reflexivity|].
    unfold appended. destruct (mapping (type f) hl !! hash f) as [fl|]; cbn [data].
    + apply last_snoc.
    + reflexivity.
Qed.

Lemma ingest_only_appends_witness :
  exists hl' fl', update empty_HashList fragB = Ok hl' /\
    mapping 0 hl' !! 1 = Some fl' /\ last (data fl') = Some fragB.
Proof.
  destruct (ingest_only_appends empty_HashList fragB) as (hl' & Hu & _ & _ & Hlast).
  destruct (Hlast eq_refl) as (fl' & Hl & Hd).
  exists hl', fl'. split; [exact Hu|]. split; [exact Hl|exact Hd].
Defined.

End HashListMore.

(** * Further properties of mammotion.py *)

Module MammotionMore.
Import MammotionModel MammotionFacts.

(** ** The registry *)

(** X4: [add_ble_device] for a radio device [b] always leaves an entry
    under the name of [b] whose radio handle is built from [b]; when the
    name was registered before, the cloud handle, the preference and the
    name of the entry are kept (the preference passed is ignored);
    otherwise the entry has no cloud handle and the preference passed. The
    other entries, the sessions and the trace are untouched. *)
Theorem add_ble_device_registers_or_merges (b : BLEDevice) (pref : ConnectionPreference)
  (w : world) :
  exists e',
    add_ble_device (Some b) pref w
      = (Ok tt, set_devices (<[ble_name b := e']> (devices w)) w) /\
    _ble_device e' = Some {| ble_device := b |} /\
    match devices w !! ble_name b with
    | Some e =>
        _cloud_device e' = _cloud_device e /\ preference e' = preference e /\
        name e' = name e
    | None => _cloud_device e' = None /\ preference e' = pref /\ name e' = ble_name b
    end.
Proof.
  unfold add_ble_device, add_device.
  cbn [MammotionMixedDeviceManager_init add_ble add_cloud name].
  destruct (devices w !! ble_name b) as [e|] eqn:E.
  - eexists. split; [reflexivity|]. cbn. auto.
  - eexists. split; [reflexivity|]. cbn. auto.
Qed.

Lemma replace_cloud_self (e : MammotionMixedDeviceManager) : replace_cloud e (cloud e) = e.
Proof. destruct e. reflexivity. Qed.

Lemma replace_ble_self (e : MammotionMixedDeviceManager) : replace_ble e (ble e) = e.
Proof. destruct e. reflexivity. Qed.

(** X5: registering the same descriptor twice is registering it once. *)
Theorem add_device_idempotent (devices : gmap string MammotionMixedDeviceManager)
  (d : MammotionMixedDeviceManager) :
  add_device (add_device devices d) d = add_device devices d.
Proof.
  assert (H1 : exists e1, add_device devices d = <[name d := e1]> devices /\
      (if has_cloud d then replace_cloud e1 (cloud d) else e1) = e1 /\
      (if has_ble d then replace_ble e1 (ble d) else e1) = e1).
  { unfold add_device. destruct (devices !! name d) as [e|] eqn:E.
    - eexists. split; [reflexivity|].
      unfold has_cloud, has_ble, replace_cloud, replace_ble, cloud, ble.
      destruct d as [n b c p], e as [n' b' c' p']. cbn.
      split; repeat case_bool_decide; reflexivity.
    - exists d. split; [reflexivity|].
      destruct (has_cloud d), (has_ble d);
        rewrite ?replace_cloud_self, ?replace_ble_self; auto. }
  destruct H1 as (e1 & -> & Hc & Hb).
  unfold add_device. rewrite lookup_insert_eq, insert_insert_eq, Hc, Hb. reflexivity.
Qed.

(** X6: [add_device] never removes a name: the registered names afterwards
    are those before and the name of the descriptor; and a descriptor
    registered under a new name is what [get_device] returns for it. *)
Theorem add_device_grows_by_name (devices : gmap string MammotionMixedDeviceManager)
  (d : MammotionMixedDeviceManager) :
  dom (add_device devices d) = {[name d]} ∪ dom devices /\
  (devices !! name d = None -> get_device (add_device devices d) (name d) = Some d).
Proof.
  unfold add_device, get_device. destruct (devices !! name d) as [e|] eqn:E.
  - split; [apply dom_insert_L|discriminate].
  - split; [apply dom_insert_L|]. intros _. apply lookup_insert_eq.
Qed.

Lemma add_device_grows_by_name_witness :
  get_device (add_device ∅ cloud_descriptor) "Luba-1" = Some cloud_descriptor.
Proof.
  destruct (add_device_grows_by_name ∅ cloud_descriptor) as [_ H]. apply H. reflexivity.
Defined.

(** X7: [remove_device] raises in two situations only, and calls no
    [disconnect] in either: [KeyError] when the name is not registered (the
    registry is then unchanged), and [AttributeError] when the removed
    entry's cloud handle is bound to no broker connection ([_mqtt] is
    [None]) and no remaining entry has such a handle; in that second case
    the entry is removed all the same. *)
Theorem remove_device_raises_only (devices d' : gmap string MammotionMixedDeviceManager)
  (name : string) (evs : list event) (e : py_exception) :
  remove_device devices name = (d', evs, Raise e) ->
  evs = [] /\
  ((e = KeyError /\ devices !! name = None /\ d' = devices) \/
   (e = AttributeError /\ d' = delete name devices /\
    exists dev c, devices !! name = Some dev /\ cloud dev = Some c /\ _mqtt c = None /\
      forall n dev' c', n <> name -> devices !! n = Some dev' -> cloud dev' = Some c' ->
        _mqtt c' <> None)).
Proof.
  unfold remove_device. destruct (devices !! name) as [dev|] eqn:Hd.
  - destruct (cloud dev) as [c|] eqn:Hc; [|discriminate].
    case_bool_decide as Hlen; [|discriminate].
    destruct (_mqtt c) as [m|] eqn:Hm; [discriminate|].
    intros H. injection H as <- <- <-. split; [reflexivity|]. right.
    split; [reflexivity|]. split; [reflexivity|]. exists dev, c. repeat split; try assumption.
    intros n dev' c' Hn Hl Hc' Hnone.
    apply length_zero_iff_nil in Hlen.
    pose proof (proj1 (should_disconnect_nil _ _) Hlen n dev' c') as Hf.
    rewrite lookup_delete_ne in Hf by congruence. specialize (Hf Hl Hc').
    rewrite Hnone, Hm in Hf. discriminate.
  - intros H. injection H as <- <- <-. auto.
Qed.

Lemma remove_device_raises_only_witness :
  exists dev c, unbound_cloud_registry !! "Luba-1" = Some dev /\ cloud dev = Some c /\
    _mqtt c = None.
Proof.
  destruct (remove_device_raises_only unbound_cloud_registry
              (delete "Luba-1" unbound_cloud_registry) "Luba-1" [] AttributeError)
    as [_ [(H & _)|(_ & _ & dev & c & Hd & Hc & Hm & _)]]; [reflexivity|discriminate|].
  exists dev, c. auto.
Defined.

Lemma remove_device_without_cloud (devices : gmap string MammotionMixedDeviceManager)
  (name : string) (dev : MammotionMixedDeviceManager) :
  devices !! name = Some dev -> cloud dev = None ->
  remove_device devices name = (delete name devices, [], Ok tt).
Proof. intros Hd Hc. unfold remove_device. rewrite Hd, Hc. reflexivity. Qed.

(** X8: registering a radio device under a name that is not registered and
    removing it again gives back the state before, and calls no
    [disconnect]. *)
Theorem add_then_remove_radio_device (b : BLEDevice) (pref : ConnectionPreference) (w : world) :
  devices w !! ble_name b = None ->
  (add_ble_device (Some b) pref ≫= fun _ => Mammotion_remove_device (ble_name b)) w
  = (Ok tt, w).
Proof.
  intros Hn. rewrite M_bind_eq. unfold add_ble_device, add_device.
  cbn [MammotionMixedDeviceManager_init add_ble add_cloud name]. rewrite Hn.
  unfold Mammotion_remove_device. cbn [set_devices devices].
  erewrite remove_device_without_cloud; [|apply lookup_insert_eq|reflexivity].
  rewrite delete_insert_eq, delete_id by exact Hn.
  destruct w. cbn. rewrite app_nil_r. reflexivity.
Qed.

Lemma add_then_remove_radio_device_witness :
  (add_ble_device (Some luba1_ble) BLUETOOTH ≫= fun _ => Mammotion_remove_device "Luba-1")
    empty_world = (Ok tt, empty_world).
Proof. apply (add_then_remove_radio_device luba1_ble BLUETOOTH empty_world). reflexivity. Defined.

(** ** Reconciliation *)

(** X9: running the reconciliation twice for one broker connection is
    running it once. *)
Theorem reconciliation_idempotent (m : MammotionCloud) (w : world) :
  (add_cloud_devices m ≫= fun _ => add_cloud_devices m) w = add_cloud_devices m w.
Proof.
  rewrite M_bind_eq. destruct (add_cloud_devices_eq m w) as (d1 & H1 & Hl1). rewrite H1.
  destruct (add_cloud_devices_eq m (set_devices d1 w)) as (d2 & H2 & Hl2). rewrite H2.
  cbn [set_devices devices] in Hl2. unfold set_devices. cbn. f_equal. f_equal.
  apply map_eq. intros n. rewrite Hl2, Hl1.
  destruct (first_recognized _ n) as [dv|]; [|reflexivity].
  rewrite reconciled_idem. reflexivity.
Qed.

(** X10: the reconciliation removes no entry and never touches the name,
    the radio handle or the preference of an entry, nor takes a cloud
    handle away. *)
Theorem reconciliation_keeps_entries (m : MammotionCloud) (w : world) :
  exists d', add_cloud_devices m w = (Ok tt, set_devices d' w) /\
    forall n e, devices w !! n = Some e ->
      exists e', d' !! n = Some e' /\
        name e' = name e /\ _ble_device e' = _ble_device e /\
        preference e' = preference e /\
        (_cloud_device e <> None -> _cloud_device e' <> None).
Proof.
  destruct (add_cloud_devices_eq m w) as (d' & Hd' & Hl). exists d'. split; [exact Hd'|].
  intros n e He. rewrite Hl, He.
  destruct (first_recognized _ n) as [dv|].
  - eexists. split; [reflexivity|]. cbn. repeat split.
    destruct (_cloud_device e); [discriminate|congruence].
  - exists e. auto.
Qed.

Lemma reconciliation_keeps_entries_witness :
  exists d' e', add_cloud_devices broker2 before_reconciliation
                = (Ok tt, set_devices d' before_reconciliation) /\
    d' !! "Luba-1" = Some e' /\ preference e' = BLUETOOTH /\
    _ble_device e' = Some {| ble_device := luba1_ble |}.
Proof.
  destruct (reconciliation_keeps_entries broker2 before_reconciliation) as (d' & Hd & Hk).
  destruct (Hk "Luba-1"
              (MammotionMixedDeviceManager_init "Luba-1" None (Some luba1_ble) None BLUETOOTH))
    as (e' & He & _ & Hb & Hp & _); [reflexivity|].
  exists d', e'. auto.
Defined.

(** Routing reads the preference and the handle the preference selects. *)
Lemma routing_depends_on_selected_handle (w w' : world) (name : string)
  (e e' : MammotionMixedDeviceManager) :
  get_device_by_name w name = Some e -> get_device_by_name w' name = Some e' ->
  preference e' = preference e ->
  (preference e = BLUETOOTH -> _ble_device e' = _ble_device e) ->
  (preference e = WIFI -> _cloud_device e' = _cloud_device e) ->
  (forall key, send_command w' name key = send_command w name key) /\
  (forall key kwargs, send_command_with_args w' name key kwargs
                      = send_command_with_args w name key kwargs) /\
  (forall retry, start_sync w' name retry = start_sync w name retry) /\
  start_map_sync w' name = start_map_sync w name.
Proof.
  intros He He' Hp Hb Hc.
  unfold send_command, send_command_with_args, start_sync, start_map_sync.
  rewrite He, He', Hp. unfold ble, cloud.
  destruct (preference e); cbn; repeat split; intros;
    rewrite ?Hb, ?Hc by reflexivity; reflexivity.
Qed.

(** X11: for a registered device whose preference is not WIFI, the four
    routing operations do after a reconciliation what they did before it:
    the cloud handle a reconciliation attaches does not change where the
    commands of a radio device go. *)
Theorem reconciliation_keeps_radio_routing (m : MammotionCloud) (w : world)
  (name : string) (e : MammotionMixedDeviceManager) :
  get_device_by_name w name = Some e ->
  preference e <> WIFI ->
  let w' := (add_cloud_devices m w).2 in
  (forall key, send_command w' name key = send_command w name key) /\
  (forall key kwargs, send_command_with_args w' name key kwargs
                      = send_command_with_args w name key kwargs) /\
  (forall retry, start_sync w' name retry = start_sync w name retry) /\
  start_map_sync w' name = start_map_sync w name.
Proof.
  intros He Hp w'. subst w'.
  destruct (add_cloud_devices_eq m w) as (d' & -> & Hl).
  assert (He' : exists e', get_device_by_name (set_devices d' w) name = Some e' /\
                  preference e' = preference e /\ _ble_device e' = _ble_device e).
  { unfold get_device_by_name, get_device in *. cbn [set_devices devices].
    rewrite Hl, He. destruct (first_recognized _ name); eexists; split; reflexivity || auto. }
  destruct He' as (e' & He' & Hpref & Hb).
  apply (routing_depends_on_selected_handle w (set_devices d' w) name e e' He He' Hpref).
  - intros _. exact Hb.
  - intros H. contradiction.
Qed.

Lemma reconciliation_keeps_radio_routing_witness :
  start_map_sync (add_cloud_devices broker2 before_reconciliation).2 "Luba-1"
  = start_map_sync before_reconciliation "Luba-1".
Proof.
  destruct (reconciliation_keeps_radio_routing broker2 before_reconciliation "Luba-1"
              (MammotionMixedDeviceManager_init "Luba-1" None (Some luba1_ble) None BLUETOOTH))
    as (_ & _ & _ & H); [reflexivity|discriminate|exact H].
Defined.

(** What the reconciliation leaves under the name of a recognized device
    of the device list. *)
Lemma add_cloud_devices_listed (m : MammotionCloud) (w : world) :
  exists d', add_cloud_devices m w = (Ok tt, set_devices d' w) /\
    forall device, device ∈ devices_by_account_response (cloud_client m) ->
      recognized_name (deviceName device) = true ->
      exists dv, dv ∈ devices_by_account_response (cloud_client m) /\
        deviceName dv = deviceName device /\
        d' !! deviceName device
          = Some (reconciled m dv (devices w !! deviceName device)).
Proof.
  destruct (add_cloud_devices_eq m w) as (d' & Hd' & Hl). exists d'. split; [exact Hd'|].
  intros device Hin Hrec. specialize (Hl (deviceName device)).
  destruct (first_recognized _ _) as [dv|] eqn:Ef.
  - apply first_recognized_Some in Ef as (Hdv & Hname & _). exists dv. auto.
  - apply first_recognized_None in Ef as [Ef|Ef]; [congruence|].
    exfalso. apply Ef. apply list_elem_of_fmap. exists device. auto.
Qed.

(** X12: after a reconciliation for the broker connection [m], a recognized
    device of the device list that was not registered before is routed to
    the cloud transport: each of the four routing operations awaits the
    call on a cloud handle bound to [m] for a descriptor of that name. *)
Theorem reconciled_device_routes_to_cloud (m : MammotionCloud) (w : world) (device : Device) :
  device ∈ devices_by_account_response (cloud_client m) ->
  recognized_name (deviceName device) = true ->
  devices w !! deviceName device = None ->
  let w' := (add_cloud_devices m w).2 in
  exists h, _mqtt h = Some m /\ deviceName (cloud_device h) = deviceName device /\
    (forall key, send_command w' (deviceName device) key
                 = Ok (ReturnAwait (CloudCommand h key []))) /\
    (forall key kwargs, send_command_with_args w' (deviceName device) key kwargs
                 = Ok (ReturnAwait (CloudCommand h key kwargs))) /\
    (forall retry, start_sync w' (deviceName device) retry
                 = Ok (ReturnAwait (CloudStartSync h retry))) /\
    start_map_sync w' (deviceName device) = Ok (ReturnAwait (CloudStartMapSync h)).
Proof.
  intros Hin Hrec Hnone w'. subst w'.
  destruct (add_cloud_devices_listed m w) as (d' & -> & Hb).
  destruct (Hb device Hin Hrec) as (dv & _ & Hname & He').
  rewrite Hnone in He'.
  exists {| _mqtt := Some m; cloud_device := dv |}. split; [reflexivity|]. split; [exact Hname|].
  unfold send_command, send_command_with_args, start_sync, start_map_sync, get_device_by_name,
    get_device. cbn [set_devices devices snd]. rewrite He'. cbn. auto.
Qed.

Lemma reconciled_device_routes_to_cloud_witness :
  exists h, _mqtt h = Some broker1 /\
    start_map_sync (add_cloud_devices broker1 empty_world).2 "Luba-1"
    = Ok (ReturnAwait (CloudStartMapSync h)).
Proof.
  destruct (reconciled_device_routes_to_cloud broker1 empty_world luba1)
    as (h & Hm & _ & _ & _ & _ & H); [|reflexivity|reflexivity|].
  - apply list_elem_of_In. cbn. auto.
  - exists h. split; [exact Hm|exact H].
Defined.

(** X13: a registered device of the account that is removed and then
    reconciled is registered again, as a cloud-only entry: a cloud handle
    bound to the broker connection, WIFI preference, and no radio handle,
    whatever the removed entry had (also when the removal raised after the
    entry was taken out). *)
Theorem removed_device_is_readded (m : MammotionCloud) (device : Device)
  (d1 : gmap string MammotionMixedDeviceManager) (evs : list event)
  (r : py_result unit) (w : world) :
  device ∈ devices_by_account_response (cloud_client m) ->
  recognized_name (deviceName device) = true ->
  remove_device (devices w) (deviceName device) = (d1, evs, r) ->
  devices w !! deviceName device <> None ->
  exists d' dv,
    add_cloud_devices m (set_devices d1 w) = (Ok tt, set_devices d' w) /\
    dv ∈ devices_by_account_response (cloud_client m) /\
    deviceName dv = deviceName device /\
    d' !! deviceName device =
      Some {| name := deviceName device; _ble_device := None;
              _cloud_device := Some {| _mqtt := Some m; cloud_device := dv |};
              preference := WIFI |}.
Proof.
  intros Hin Hrec Hrem Hsome.
  assert (Hd1 : d1 = delete (deviceName device) (devices w)).
  { unfold remove_device in Hrem.
    destruct (devices w !! deviceName device) as [dev|]; [|contradiction].
    destruct (cloud dev) as [c|]; [|congruence].
    case_bool_decide; [|congruence]. destruct (_mqtt c); congruence. }
  destruct (add_cloud_devices_listed m (set_devices d1 w)) as (d' & Hd' & Hb).
  destruct (Hb device Hin Hrec) as (dv & Hdv & Hname & He').
  cbn [set_devices devices] in He'. rewrite Hd1, lookup_delete_eq in He'.
  exists d', dv. split; [exact Hd'|]. split; [exact Hdv|]. split; [exact Hname|].
  rewrite He'. unfold reconciled. rewrite Hname. reflexivity.
Qed.

Lemma removed_device_is_readded_witness :
  exists d' dv,
    add_cloud_devices broker1 (set_devices (delete "Luba-1" two_devices) two_devices_world)
      = (Ok tt, set_devices d' two_devices_world) /\
    d' !! "Luba-1" =
      Some {| name := "Luba-1"; _ble_device := None;
              _cloud_device := Some {| _mqtt := Some broker1; cloud_device := dv |};
              preference := WIFI |}.
Proof.
  destruct (removed_device_is_readded broker1 luba1 (delete "Luba-1" two_devices) [] (Ok tt)
              two_devices_world) as (d' & dv & Hd & _ & _ & Hl);
    [apply list_elem_of_In; cbn; auto|reflexivity|reflexivity|discriminate|].
  exists d', dv. split; [exact Hd|exact Hl].
Defined.

(** ** Login and connection, continued *)

Lemma reconciled_bound (m : MammotionCloud) (dv : Device)
  (o : option MammotionMixedDeviceManager) :
  exists h, cloud (reconciled m dv o) = Some h /\ mqtt_eqb (_mqtt h) (Some m) = true.
Proof.
  unfold cloud, reconciled. destruct o as [e|]; cbn [_cloud_device].
  - destruct (_cloud_device e) as [c|]; eexists; (split; [reflexivity|]); cbn [_mqtt];
      [|apply mqtt_eqb_refl].
    destruct (mqtt_eqb (Some m) (_mqtt c)) eqn:E; [|apply mqtt_eqb_refl].
    destruct (_mqtt c) as [m'|]; [|discriminate]. cbn in *.
    apply bool_decide_eq_true in E. apply bool_decide_eq_true_2. congruence.
  - eexists. split; [reflexivity|]. apply mqtt_eqb_refl.
Qed.

Lemma reconciliation_binds (m : MammotionCloud) (w : world) :
  exists d', add_cloud_devices m w = (Ok tt, set_devices d' w) /\
    session_bound (set_devices d' w) m.
Proof.
  destruct (add_cloud_devices_listed m w) as (d' & Hd' & Hb).
  exists d'. split; [exact Hd'|]. intros device Hin Hrec.
  destruct (Hb device Hin Hrec) as (dv & _ & _ & He').
  destruct (reconciled_bound m dv (devices w !! deviceName device)) as (h & Hh & Hm).
  exists (reconciled m dv (devices w !! deviceName device)), h.
  cbn [set_devices devices]. auto.
Qed.

Lemma initiate_start_new_eq (account : string) (c : CloudIOTGateway) (w : world) :
  mqtt_list w !! account = None ->
  let m := {| mqtt_id := next_mqtt_id w; cloud_client := c |} in
  exists d', add_cloud_devices m (with_new_session account c w)
             = (Ok tt, set_devices d' (with_new_session account c w)) /\
    initiate_cloud_connection_start account c w
    = (Ok (Some m), set_devices d' (with_new_session account c w)).
Proof.
  intros Hs m.
  destruct (add_cloud_devices_eq m (with_new_session account c w)) as (d' & Hd' & _).
  exists d'. split; [exact Hd'|].
  unfold initiate_cloud_connection_start.
  rewrite Hs. rewrite M_bind_eq. cbn [MammotionCloud_init].
  rewrite M_bind_eq. cbn [devices mqtt_list self_cloud_client connected next_mqtt_id trace].
  rewrite M_bind_eq. fold m. change (add_cloud_devices m _) with
    (add_cloud_devices m (with_new_session account c w)). rewrite Hd'. reflexivity.
Qed.

Section LoginMore.
Variable login_exchange : string -> string -> py_result CloudIOTGateway.
Variable connect_async : MammotionCloud -> py_result unit.

(** X14: however the connection step ends (also when the connect raises),
    a session is stored for the account afterwards, every recognized device
    of that session's device list is registered with a cloud handle bound
    to the session's broker connection, and the sessions of the other
    accounts are untouched. *)
Theorem connection_step_stores_bound_session (account : string) (c : CloudIOTGateway)
  (w : world) :
  let w' := (initiate_cloud_connection connect_async account c w).2 in
  exists m, mqtt_list w' !! account = Some m /\ session_bound w' m /\
    (forall a, a <> account -> mqtt_list w' !! a = mqtt_list w !! a).
Proof.
  intros w'. subst w'. unfold initiate_cloud_connection. rewrite M_bind_eq.
  destruct (mqtt_list w !! account) as [m|] eqn:Hs.
  - destruct (initiate_start_connected account c w m Hs (is_connected_truthy w m))
      as (d' & Hd' & ->).
    destruct (reconciliation_binds m w) as (d2 & Hd2 & Hb).
    rewrite Hd' in Hd2. injection Hd2 as Hd2. cbn [snd].
    exists m. split; [exact Hs|]. split; [rewrite Hd2; exact Hb|]. reflexivity.
  - destruct (initiate_start_new_eq account c w Hs) as (d' & Hd' & ->).
    destruct (reconciliation_binds {| mqtt_id := next_mqtt_id w; cloud_client := c |}
                (with_new_session account c w)) as (d2 & Hd2 & Hb).
    rewrite Hd' in Hd2. injection Hd2 as Hd2.
    eexists. unfold run_in_executor_connect_async. cbn [snd add_event set_devices mqtt_list
      with_new_session]. split; [apply lookup_insert_eq|]. split.
    + intros device Hin Hrec. destruct (Hb device Hin Hrec) as (e & h & He & Hh).
      rewrite <- Hd2 in He. exists e, h. auto.
    + intros a Ha. rewrite lookup_insert_ne by congruence. reflexivity.
Qed.

(** X15: a forced login while the session's broker connection reports
    connected performs the login exchange and drops its result: the call
    returns, the session and the stored cloud context are the ones before,
    no broker connection object is constructed, and the registry is
    reconciled against the existing session. *)
Theorem forced_login_keeps_connected_session (account password : string)
  (m : MammotionCloud) (c : CloudIOTGateway) (w : world) :
  mqtt_list w !! account = Some m ->
  is_connected w m = true ->
  login_exchange account password = Ok c ->
  exists w',
    login_and_initiate_cloud login_exchange connect_async account password true w
      = (Ok tt, w') /\
    trace w' = (trace w ++ [EvLogin account password])%list /\
    mqtt_list w' = mqtt_list w /\
    self_cloud_client w' = self_cloud_client w /\
    (add_cloud_devices m w).2 = set_devices (devices w') w.
Proof.
  intros Hs Hc Hl. unfold login_and_initiate_cloud. rewrite Hs, M_bind_eq.
  unfold login. rewrite Hl. unfold initiate_cloud_connection. rewrite M_bind_eq.
  destruct (initiate_start_connected account c (add_event (EvLogin account password) w) m)
    as (d' & Hd' & ->); [exact Hs|exact Hc|].
  eexists. split; [reflexivity|]. cbn [set_devices add_event trace mqtt_list self_cloud_client
    devices]. repeat split.
  unfold add_cloud_devices in Hd' |- *. cbn [devices add_event] in Hd'.
  destruct (add_cloud_devices_loop m _ (devices w)) as [d|e]; [|discriminate].
  injection Hd' as Hd'. cbn [snd]. unfold set_devices in *. cbn in *. congruence.
Qed.

(** X16: the call raises only what the network raised: either the login
    exchange raised it, and then nothing but the trace has changed; or the
    executor raised it for the broker connection that is by then stored as
    the account's session. *)
Theorem login_raises_only_from_network (account password : string) (force : bool)
  (w w' : world) (e : py_exception) :
  login_and_initiate_cloud login_exchange connect_async account password force w
    = (Raise e, w') ->
  (login_exchange account password = Raise e /\
   w' = add_event (EvLogin account password) w) \/
  (exists m, connect_async m = Raise e /\ mqtt_list w' !! account = Some m /\
     last (trace w') = Some (EvConnect m)).
Proof.
  assert (Hinit : forall c w0 w1,
            initiate_cloud_connection connect_async account c w0 = (Raise e, w1) ->
            exists m, connect_async m = Raise e /\ mqtt_list w1 !! account = Some m /\
              last (trace w1) = Some (EvConnect m)).
  { intros c w0 w1. unfold initiate_cloud_connection. rewrite M_bind_eq.
    destruct (mqtt_list w0 !! account) as [m|] eqn:Hs.
    - destruct (initiate_start_connected account c w0 m Hs (is_connected_truthy w0 m))
        as (d' & _ & ->). discriminate.
    - destruct (initiate_start_new_eq account c w0 Hs) as (d' & _ & ->).
      unfold run_in_executor_connect_async. intros H. injection H as Hr <-.
      eexists. split; [exact Hr|]. cbn. rewrite lookup_insert_eq, last_snoc. auto. }
  unfold login_and_initiate_cloud. rewrite M_bind_eq.
  assert (Hlogin : match login login_exchange account password w with
                   | (Ok a, w0) => initiate_cloud_connection connect_async account a w0
                   | (Raise e0, w0) => (Raise e0, w0)
                   end = (Raise e, w') ->
          (login_exchange account password = Raise e /\
           w' = add_event (EvLogin account password) w) \/
          (exists m, connect_async m = Raise e /\ mqtt_list w' !! account = Some m /\
             last (trace w') = Some (EvConnect m))).
  { unfold login. destruct (login_exchange account password) as [c|e0].
    - intros H. right. eapply Hinit. exact H.
    - intros H. injection H as -> <-. left. auto. }
  destruct (mqtt_list w !! account) as [m0|]; [destruct force|]; try exact Hlogin.
  intros H. right. eapply Hinit. exact H.
Qed.

(** X17: after a first call whose login succeeded and whose connect
    raised, a second call does not connect again. The connection step reads
    the method [is_connected] of the stored broker connection without
    calling it, so the stored session passes the test although it never
    connected: the second call returns normally, performs no login
    exchange, constructs no broker connection object and hands nothing to
    the executor; the session stays the one the first call stored, and the
    registry is reconciled against it. *)
Theorem retry_after_failed_connect_does_not_reconnect (account password : string)
  (c : CloudIOTGateway) (e : py_exception) (w w1 : world) :
  mqtt_list w !! account = None ->
  login_exchange account password = Ok c ->
  login_and_initiate_cloud login_exchange connect_async account password false w
    = (Raise e, w1) ->
  exists m w2,
    mqtt_list w1 !! account = Some m /\
    connect_async m = Raise e /\
    login_and_initiate_cloud login_exchange connect_async account password false w1
      = (Ok tt, w2) /\
    trace w2 = trace w1 /\
    mqtt_list w2 = mqtt_list w1 /\
    connected w2 = connected w1 /\
    (add_cloud_devices m w1).2 = set_devices (devices w2) w1.
Proof.
  intros Hs Hl Hcall.
  set (m := {| mqtt_id := next_mqtt_id (add_event (EvLogin account password) w);
               cloud_client := c |}).
  assert (Hw1 : mqtt_list w1 !! account = Some m /\ connect_async m = Raise e).
  { revert Hcall. unfold login_and_initiate_cloud. rewrite Hs, M_bind_eq. unfold login.
    rewrite Hl. unfold initiate_cloud_connection. rewrite M_bind_eq.
    destruct (initiate_start_new_eq account c (add_event (EvLogin account password) w) Hs)
      as (d' & _ & ->).
    unfold run_in_executor_connect_async. intros H. injection H as Hr <-.
    split; [cbn; apply lookup_insert_eq|exact Hr]. }
  destruct Hw1 as [Hw1 Hr].
  destruct (initiate_start_connected account (cloud_client m) w1 m Hw1
              (is_connected_truthy w1 m)) as (d' & Hd' & Hi).
  exists m, (set_devices d' w1). split; [exact Hw1|]. split; [exact Hr|]. split.
  - unfold login_and_initiate_cloud. rewrite Hw1, M_bind_eq. cbn [mret M_ret].
    unfold initiate_cloud_connection. rewrite M_bind_eq, Hi. reflexivity.
  - repeat (split; [reflexivity|]). rewrite Hd'. reflexivity.
Qed.

End LoginMore.

Lemma connection_step_stores_bound_session_witness :
  exists m, mqtt_list (initiate_cloud_connection (fun _ => Raise ConnectionError)
                         "user@example.org" gateway empty_world).2
              !! "user@example.org" = Some m.
Proof.
  destruct (connection_step_stores_bound_session (fun _ => Raise ConnectionError)
              "user@example.org" gateway empty_world) as (m & Hm & _).
  exists m. exact Hm.
Defined.

Lemma forced_login_keeps_connected_session_witness :
  exists w',
    login_and_initiate_cloud (fun _ _ => Ok gateway) (fun _ => Ok tt)
      "user@example.org" "secret" true session_world = (Ok tt, w') /\
    trace w' = [EvLogin "user@example.org" "secret"] /\
    mqtt_list w' = mqtt_list session_world.
Proof.
  destruct (forced_login_keeps_connected_session (fun _ _ => Ok gateway) (fun _ => Ok tt)
              "user@example.org" "secret" broker1 gateway session_world)
    as (w' & Hcall & Ht & Hm & _); [reflexivity..|].
  exists w'. split; [exact Hcall|]. split; [exact Ht|exact Hm].
Defined.

Lemma login_raises_only_from_network_witness :
  failing_login "user@example.org" "secret" = Raise LoginError.
Proof.
  destruct (login_raises_only_from_network failing_login (fun _ => Ok tt)
              "user@example.org" "secret" false empty_world
              (add_event (EvLogin "user@example.org" "secret") empty_world) LoginError)
    as [[H _]|(m & H & _)]; [reflexivity|exact H|discriminate].
Defined.

Lemma retry_after_failed_connect_does_not_reconnect_witness :
  exists w1 w2,
    login_and_initiate_cloud (fun _ _ => Ok gateway) (fun _ => Raise ConnectionError)
      "user@example.org" "secret" false empty_world = (Raise ConnectionError, w1) /\
    login_and_initiate_cloud (fun _ _ => Ok gateway) (fun _ => Raise ConnectionError)
      "user@example.org" "secret" false w1 = (Ok tt, w2) /\
    trace w2 = trace w1 /\ connected w2 = ∅.
Proof.
  destruct (retry_after_failed_connect_does_not_reconnect (fun _ _ => Ok gateway)
              (fun _ => Raise ConnectionError) "user@example.org" "secret" gateway
              ConnectionError empty_world
              (login_and_initiate_cloud (fun _ _ => Ok gateway)
                 (fun _ => Raise ConnectionError)
                 "user@example.org" "secret" false empty_world).2)
    as (m & w2 & _ & _ & Hcall & Ht & _ & Hc & _); [reflexivity|reflexivity|reflexivity|].
  eexists _, w2. split; [reflexivity|]. split; [exact Hcall|]. split; [exact Ht|].
  rewrite Hc. reflexivity.
Defined.

(** ** The coroutines, continued *)

Lemma count_all_finished (l : list coroutine) :
  forallb is_finished l = true -> count_tasks inside l = 0%nat.
Proof.
  unfold count_tasks. induction l as [|t l IH]; [reflexivity|].
  cbn. intros H. apply andb_true_iff in H as [Ht Hl]. destruct t; try discriminate.
  cbn. auto.
Qed.

(** X18: whatever the logins and the executor answer (exceptions
    included), the lock is free again once all the calls have returned. *)
Theorem lock_released_when_all_returned (n : nat) (account password : string) (w : world)
  (ls : list label) (s : system) :
  run ls (start n account password w) = Some s ->
  forallb is_finished (tasks s) = true ->
  _login_lock s = false.
Proof.
  intros Hrun Hfin.
  pose proof (run_lock_inv ls _ _ (start_lock_inv n account password w) Hrun) as [[_ H]|[H _]];
    [|exact H].
  rewrite (count_all_finished _ Hfin) in H. discriminate.
Qed.

Lemma count_pos_lookup (P : coroutine -> bool) (l : list coroutine) :
  (0 < count_tasks P l)%nat -> exists i t, l !! i = Some t /\ P t = true.
Proof.
  unfold count_tasks. induction l as [|x l IH]; cbn; [lia|].
  destruct (P x) eqn:E.
  - intros _. exists 0%nat, x. auto.
  - intros H. destruct (IH H) as (i & t & Hl & Ht). exists (S i), t. auto.
Qed.

Lemma not_all_finished (l : list coroutine) :
  forallb is_finished l = false -> exists i t, l !! i = Some t /\ is_finished t = false.
Proof.
  induction l as [|x l IH]; cbn; [discriminate|].
  destruct (is_finished x) eqn:E; cbn.
  - intros H. destruct (IH H) as (i & t & Hl & Ht). exists (S i), t. auto.
  - intros _. exists 0%nat, x. auto.
Qed.

(** X19: the calls never block one another for good: as long as one of
    them has not returned, either the lock is free and a waiting call can
    take it, or the call that holds it waits for the login exchange or for
    the executor, whose answer it accepts. *)
Theorem some_call_can_always_proceed (n : nat) (account password : string) (w : world)
  (ls : list label) (s : system) :
  run ls (start n account password w) = Some s ->
  forallb is_finished (tasks s) = false ->
  exists i,
    (exists s', sys_step (Enter i) s = Some s') \/
    (forall r, exists s', sys_step (LoginDone i r) s = Some s') \/
    (forall r b, exists s', sys_step (ConnectDone i r b) s = Some s').
Proof.
  intros Hrun Hfin.
  pose proof (run_lock_inv ls _ _ (start_lock_inv n account password w) Hrun) as [[_ H]|[Hl H]].
  - destruct (count_pos_lookup inside (tasks s)) as (i & t & Hi & Ht); [lia|].
    exists i. destruct t as [| a | a m |]; try discriminate.
    + right. left. intros r. cbn. rewrite Hi. destruct r; eauto.
    + right. right. intros r b. cbn. rewrite Hi. eauto.
  - destruct (not_all_finished _ Hfin) as (i & t & Hi & Ht).
    pose proof (count_zero_lookup inside _ _ _ H Hi) as Hin.
    exists i. left. destruct t as [a p f| | |]; try discriminate.
    cbn. rewrite Hi, Hl. destruct (mqtt_list (shared s) !! a); [destruct f|]; eauto.
Qed.

Lemma sys_step_failing_inv (account : string) (n l0 b0 : nat) (l : label) (s s' : system) :
  failing_inv account n l0 b0 s -> login_fails l = true -> sys_step l s = Some s' ->
  failing_inv account n l0 b0 s'.
Proof.
  intros (Hlen & Hs & HB & Hall & HL) Hob Hstep.
  destruct l as [i|i r|i r b|m b]; cbn in Hstep.
  - destruct (tasks s !! i) as [[a p f| | |]|] eqn:Hl; try discriminate.
    destruct (_login_lock s); [discriminate|].
    pose proof (Forall_lookup_1 _ _ _ _ Hall Hl) as Ha. cbn in Ha. subst a.
    rewrite Hs in Hstep. injection Hstep as <-.
    unfold failing_inv. cbn [shared tasks add_event mqtt_list trace].
    split; [rewrite length_insert; exact Hlen|]. split; [exact Hs|].
    split; [rewrite brokers_created_app; cbn; lia|].
    split; [apply Forall_insert; [exact Hall|reflexivity]|].
    pose proof (count_insert awaits_login _ i _ (AwaitLogin account) Hl) as H1.
    pose proof (count_insert is_finished _ i _ (AwaitLogin account) Hl) as H2.
    rewrite logins_app. cbn in *. lia.
  - destruct (tasks s !! i) as [[| a | |]|] eqn:Hl; try discriminate.
    destruct r as [c|e]; [discriminate|]. injection Hstep as <-.
    unfold failing_inv. cbn [leave shared tasks].
    split; [rewrite length_insert; exact Hlen|]. split; [exact Hs|]. split; [exact HB|].
    split; [apply Forall_insert; [exact Hall|cbn; eauto]|].
    pose proof (count_insert awaits_login _ i _ (Finished (Raise e)) Hl) as H1.
    pose proof (count_insert is_finished _ i _ (Finished (Raise e)) Hl) as H2.
    cbn in *. lia.
  - destruct (tasks s !! i) as [[| | a m |]|] eqn:Hl; try discriminate.
    pose proof (Forall_lookup_1 _ _ _ _ Hall Hl) as Ha. destruct Ha.
  - injection Hstep as <-. unfold failing_inv. cbn. auto.
Qed.

Lemma run_failing_inv (account : string) (n l0 b0 : nat) (ls : list label) :
  forall s s', failing_inv account n l0 b0 s -> forallb login_fails ls = true ->
    run ls s = Some s' -> failing_inv account n l0 b0 s'.
Proof.
  induction ls as [|l ls IH]; intros s s' Hinv Hob Hrun; cbn in Hrun.
  - injection Hrun as <-. exact Hinv.
  - cbn in Hob. apply andb_true_iff in Hob as [Hl Hls].
    destruct (sys_step l s) as [s1|] eqn:Hs; [|discriminate].
    eapply IH; [|exact Hls|exact Hrun]. eapply sys_step_failing_inv; eassumption.
Qed.

Lemma count_finished_all (l : list coroutine) :
  forallb is_finished l = true ->
  count_tasks is_finished l = length l /\ count_tasks awaits_login l = 0%nat.
Proof.
  unfold count_tasks. induction l as [|t l IH]; [auto|].
  cbn. intros H. apply andb_true_iff in H as [Ht Hl]. destruct (IH Hl) as [H1 H2].
  rewrite Ht. destruct t; try discriminate. cbn. auto.
Qed.

(** X20: failed logins are not shared: when every login exchange fails,
    each of the [n] calls performs its own, each ends with an exception,
    and neither a session nor a broker connection object comes to be. *)
Theorem failed_logins_are_repeated (n : nat) (account password : string) (w : world)
  (ls : list label) (s : system) :
  mqtt_list w !! account = None ->
  run ls (start n account password w) = Some s ->
  forallb login_fails ls = true ->
  forallb is_finished (tasks s) = true ->
  logins (trace (shared s)) = (logins (trace w) + n)%nat /\
  brokers_created (trace (shared s)) = brokers_created (trace w) /\
  mqtt_list (shared s) !! account = None /\
  Forall (fun t => exists e, t = Finished (Raise e)) (tasks s).
Proof.
  intros Hs Hrun Hob Hfin.
  assert (Hinit : failing_inv account n (logins (trace w)) (brokers_created (trace w))
                    (start n account password w)).
  { unfold failing_inv. cbn [start shared tasks].
    split; [apply length_replicate|]. split; [exact Hs|]. split; [reflexivity|].
    split; [apply Forall_replicate; reflexivity|].
    rewrite !count_replicate_AtEntry by reflexivity. lia. }
  pose proof (run_failing_inv account n _ _ ls _ _ Hinit Hob Hrun)
    as (Hlen & Hs' & HB & Hall & HL).
  destruct (count_finished_all _ Hfin) as [H1 H2].
  split; [lia|]. split; [exact HB|]. split; [exact Hs'|].
  clear -Hall Hfin. induction Hall as [|t l Ht _ IH]; [constructor|].
  cbn in Hfin. apply andb_true_iff in Hfin as [Hf Hl].
  constructor; [|exact (IH Hl)].
  destruct t; try discriminate. destruct Ht as [e ->]. eauto.
Qed.

Lemma lock_released_when_all_returned_witness :
  exists s, run schedule2 (start 2 "user@example.org" "secret" empty_world) = Some s /\
    _login_lock s = false.
Proof.
  destruct (run schedule2 (start 2 "user@example.org" "secret" empty_world))
    as [s|] eqn:Hrun; [|vm_compute in Hrun; discriminate].
  exists s. split; [reflexivity|].
  apply (lock_released_when_all_returned 2 "user@example.org" "secret" empty_world
           schedule2 s Hrun).
  vm_compute in Hrun. injection Hrun as <-. reflexivity.
Defined.

Lemma some_call_can_always_proceed_witness :
  exists s, run [Enter 0] (start 2 "user@example.org" "secret" empty_world) = Some s /\
    exists i,
      (exists s', sys_step (Enter i) s = Some s') \/
      (forall r, exists s', sys_step (LoginDone i r) s = Some s') \/
      (forall r b, exists s', sys_step (ConnectDone i r b) s = Some s').
Proof.
  destruct (run [Enter 0] (start 2 "user@example.org" "secret" empty_world))
    as [s|] eqn:Hrun; [|vm_compute in Hrun; discriminate].
  exists s. split; [reflexivity|].
  apply (some_call_can_always_proceed 2 "user@example.org" "secret" empty_world
           [Enter 0] s Hrun).
  vm_compute in Hrun. injection Hrun as <-. reflexivity.
Defined.

Lemma failed_logins_are_repeated_witness :
  exists s, run schedule2_failing (start 2 "user@example.org" "secret" empty_world) = Some s /\
    logins (trace (shared s)) = 2%nat /\ brokers_created (trace (shared s)) = 0%nat.
Proof.
  destruct (run schedule2_failing (start 2 "user@example.org" "secret" empty_world))
    as [s|] eqn:Hrun; [|vm_compute in Hrun; discriminate].
  exists s. split; [reflexivity|].
  destruct (failed_logins_are_repeated 2 "user@example.org" "secret" empty_world
              schedule2_failing s) as (HL & HB & _);
    [reflexivity|exact Hrun|reflexivity| |split; [exact HL|exact HB]].
  vm_compute in Hrun. injection Hrun as <-. reflexivity.
Defined.

(** ** create_devices *)

(** X21: [create_devices] first registers the radio device, then: with
    BLUETOOTH preference, or with EITHER and no credentials, it returns
    without a login; with credentials and EITHER or WIFI it awaits the
    login for [account_id or email]; with WIFI and no credentials it raises
    [AttributeError] (the condition groups as [(credentials and EITHER) or
    WIFI]), the radio device being registered by then. *)
Theorem create_devices_login_decision (ble_device : option BLEDevice)
  (cloud_credentials : option Credentials) (preference : ConnectionPreference) (w : world) :
  let w1 := (add_ble_device ble_device preference w).2 in
  create_devices ble_device cloud_credentials preference w =
    match preference, cloud_credentials with
    | BLUETOOTH, _ | EITHER, None => (Ok ReturnMammotion, w1)
    | WIFI, None => (Raise AttributeError, w1)
    | _, Some c =>
        (Ok (AwaitLoginAndInitiate (py_or (account_id c) (email c)) (password c)), w1)
    end.
Proof.
  unfold create_devices. rewrite M_bind_eq.
  assert (H : add_ble_device ble_device preference w
              = (Ok tt, (add_ble_device ble_device preference w).2)).
  { unfold add_ble_device. destruct ble_device; reflexivity. }
  rewrite H. cbn [snd]. destruct preference, cloud_credentials; reflexivity.
Qed.

(** ** set_disconnect_strategy *)

Lemma set_disconnect_strategy_loop_eq (keys : list string) (disconnect : bool)
  (calls : list ble_call) :
  set_disconnect_strategy_loop keys disconnect calls =
  (calls,
   match keys with
   | [] => None
   | key :: _ =>
       Some (if bool_decide (String.length key = 2%nat)
             then Builtin AttributeError else ValueError)
   end).
Proof.
  destruct keys as [|key keys]; [reflexivity|]. cbn.
  destruct key as [|a [|b [|c k]]]; reflexivity.
Qed.

Lemma prefix_length (p : string) :
  forall n : string, String.prefix p n = true -> (String.length p <= String.length n)%nat.
Proof.
  induction p as [|a p IH]; intros n H; [cbn; lia|].
  destruct n as [|b n]; [discriminate|]. cbn in H |- *.
  destruct (Ascii.ascii_dec a b); [|discriminate]. apply IH in H. lia.
Qed.

Lemma recognized_name_long (n : string) :
  recognized_name n = true -> String.length n <> 2%nat.
Proof.
  unfold recognized_name. intros H. apply orb_true_iff in H as [H|H];
    apply prefix_length in H; cbn in H; lia.
Qed.

(** X22: [set_disconnect_strategy] iterates the registry dict itself, that
    is its names: it calls no radio handle; it returns normally only on an
    empty registry, and otherwise raises at the first name [key] of the
    registry, and at no other: [AttributeError] when [key] has exactly two
    characters (it unpacks, and a [str] has no [ble]), [ValueError] when it
    has not (it does not unpack); so always [ValueError] when the registered
    names have a recognized prefix. *)
Theorem set_disconnect_strategy_reaches_no_handle (w : world) (order : list string)
  (disconnect : bool) :
  order ≡ₚ (map_to_list (devices w)).*1 ->
  (set_disconnect_strategy order disconnect).1 = [] /\
  (devices w = ∅ -> (set_disconnect_strategy order disconnect).2 = None) /\
  (devices w <> ∅ ->
     exists key rest, order = key :: rest /\ key ∈ dom (devices w) /\
       (String.length key = 2%nat ->
        (set_disconnect_strategy order disconnect).2 = Some (Builtin AttributeError)) /\
       (String.length key <> 2%nat ->
        (set_disconnect_strategy order disconnect).2 = Some ValueError)) /\
  (devices w <> ∅ -> (forall n, n ∈ dom (devices w) -> recognized_name n = true) ->
     (set_disconnect_strategy order disconnect).2 = Some ValueError).
Proof.
  intros Hperm. unfold set_disconnect_strategy. rewrite set_disconnect_strategy_loop_eq.
  cbn [fst snd]. split; [reflexivity|].
  assert (Hnil : order = [] <-> devices w = ∅).
  { split.
    - intros ->. apply Permutation_nil in Hperm.
      apply fmap_nil_inv in Hperm. apply map_to_list_empty_iff in Hperm. exact Hperm.
    - intros He. rewrite He, map_to_list_empty in Hperm. apply Permutation_nil.
      symmetry. exact Hperm. }
  assert (Hfirst : forall key rest, order = key :: rest -> key ∈ dom (devices w)).
  { intros key rest ->. apply elem_of_dom.
    assert (Hk : key ∈ (map_to_list (devices w)).*1) by (rewrite <- Hperm; left).
    apply list_elem_of_fmap in Hk as ([k v] & -> & Hk).
    apply elem_of_map_to_list in Hk. eauto. }
  split; [|split].
  - intros He. apply Hnil in He. rewrite He. reflexivity.
  - intros Hne. destruct order as [|key order]; [exfalso; apply Hne, Hnil; reflexivity|].
    exists key, order. split; [reflexivity|]. split; [eapply Hfirst; reflexivity|]. split.
    + intros H2. rewrite bool_decide_eq_true_2 by exact H2. reflexivity.
    + intros H2. rewrite bool_decide_eq_false_2 by exact H2. reflexivity.
  - intros Hne Hrec. destruct order as [|key order]; [exfalso; apply Hne, Hnil; reflexivity|].
    rewrite bool_decide_eq_false_2; [reflexivity|].
    eapply recognized_name_long, Hrec, Hfirst. reflexivity.
Qed.

Lemma create_devices_login_decision_witness :
  create_devices (Some luba1_ble) None WIFI empty_world
  = (Raise AttributeError, (add_ble_device (Some luba1_ble) WIFI empty_world).2).
Proof. exact (create_devices_login_decision (Some luba1_ble) None WIFI empty_world). Defined.

Lemma set_disconnect_strategy_reaches_no_handle_witness :
  ((set_disconnect_strategy ["Luba-1"] true).1 = [] /\
   (set_disconnect_strategy ["Luba-1"] true).2 = Some ValueError) /\
  (set_disconnect_strategy ["L1"] true).2 = Some (Builtin AttributeError).
Proof.
  split.
  - destruct (set_disconnect_strategy_reaches_no_handle either_world ["Luba-1"] true)
      as (H1 & _ & _ & H2); [vm_compute; reflexivity|].
    split; [exact H1|]. apply H2.
    + intros H. apply (f_equal (fun d => d !! "Luba-1")) in H. vm_compute in H. discriminate.
    + intros n Hn. apply elem_of_dom in Hn as [e He].
      destruct (decide (n = "Luba-1")) as [->|Hne]; [reflexivity|].
      unfold either_world in He. cbn [set_devices devices] in He.
      rewrite lookup_singleton_ne in He by congruence. discriminate.
  - destruct (set_disconnect_strategy_reaches_no_handle two_letter_world ["L1"] true)
      as (_ & _ & H3 & _); [vm_compute; reflexivity|].
    destruct H3 as (key & rest & Ho & _ & H2 & _).
    + intros H. apply (f_equal (fun d => d !! "L1")) in H. vm_compute in H. discriminate.
    + apply H2. injection Ho as <- _. reflexivity.
Defined.

(** ** Registration and reconciliation, then routing *)

(** X23: after a reconciliation for the broker connection [m], a recognized
    device of the device list whose entry has WIFI preference (or that had
    no entry) is never left without a cloud handle: each of the four
    routing operations awaits its call on a cloud handle bound to [m], and
    none raises. *)
Theorem wifi_device_routes_after_reconciliation (m : MammotionCloud) (w : world)
  (device : Device) :
  device ∈ devices_by_account_response (cloud_client m) ->
  recognized_name (deviceName device) = true ->
  match devices w !! deviceName device with
  | Some e => preference e = WIFI
  | None => True
  end ->
  let w' := (add_cloud_devices m w).2 in
  exists h, mqtt_eqb (_mqtt h) (Some m) = true /\
    (forall key, send_command w' (deviceName device) key
                 = Ok (ReturnAwait (CloudCommand h key []))) /\
    (forall key kwargs, send_command_with_args w' (deviceName device) key kwargs
                 = Ok (ReturnAwait (CloudCommand h key kwargs))) /\
    (forall retry, start_sync w' (deviceName device) retry
                 = Ok (ReturnAwait (CloudStartSync h retry))) /\
    start_map_sync w' (deviceName device) = Ok (ReturnAwait (CloudStartMapSync h)).
Proof.
  intros Hin Hrec Hpref w'. subst w'.
  destruct (add_cloud_devices_listed m w) as (d' & -> & Hb).
  destruct (Hb device Hin Hrec) as (dv & _ & _ & He').
  destruct (reconciled_bound m dv (devices w !! deviceName device)) as (h & Hh & Hm).
  exists h. split; [exact Hm|].
  assert (Hp : preference (reconciled m dv (devices w !! deviceName device)) = WIFI).
  { destruct (devices w !! deviceName device); [exact Hpref|reflexivity]. }
  unfold send_command, send_command_with_args, start_sync, start_map_sync, get_device_by_name,
    get_device. cbn [set_devices devices snd]. rewrite He', Hp, Hh. cbn. auto.
Qed.

Lemma wifi_device_routes_after_reconciliation_witness :
  exists h, mqtt_eqb (_mqtt h) (Some broker2) = true /\
    start_map_sync (add_cloud_devices broker2 before_reconciliation).2 "Luba-2"
    = Ok (ReturnAwait (CloudStartMapSync h)).
Proof.
  destruct (wifi_device_routes_after_reconciliation broker2 before_reconciliation luba2)
    as (h & Hm & _ & _ & _ & H); [|reflexivity|reflexivity|].
  - apply list_elem_of_In. cbn. auto.
  - exists h. split; [exact Hm|exact H].
Defined.

(** X24: a radio device registered by [add_ble_device] under a name that
    was not registered is routed by its preference alone: with BLUETOOTH
    (the default) each of the four routing operations awaits its call on
    the radio handle built from the device; with WIFI each of them raises
    [AttributeError], there being no cloud handle yet; with EITHER each
    returns [None]. *)
Theorem new_radio_device_routing (b : BLEDevice) (pref : ConnectionPreference) (w : world)
  (key : string) (kwargs : list (string * py_any)) (retry : Z) :
  devices w !! ble_name b = None ->
  let w' := (add_ble_device (Some b) pref w).2 in
  let h := {| ble_device := b |} in
  match pref with
  | BLUETOOTH =>
      send_command w' (ble_name b) key = Ok (ReturnAwait (BleCommand h key [])) /\
      send_command_with_args w' (ble_name b) key kwargs
        = Ok (ReturnAwait (BleCommand h key kwargs)) /\
      start_sync w' (ble_name b) retry = Ok (ReturnAwait (BleStartSync h retry)) /\
      start_map_sync w' (ble_name b) = Ok (ReturnAwait (BleStartMapSync h))
  | WIFI =>
      send_command w' (ble_name b) key = Raise AttributeError /\
      send_command_with_args w' (ble_name b) key kwargs = Raise AttributeError /\
      start_sync w' (ble_name b) retry = Raise AttributeError /\
      start_map_sync w' (ble_name b) = Raise AttributeError
  | EITHER =>
      send_command w' (ble_name b) key = Ok ReturnNone /\
      send_command_with_args w' (ble_name b) key kwargs = Ok ReturnNone /\
      start_sync w' (ble_name b) retry = Ok ReturnNone /\
      start_map_sync w' (ble_name b) = Ok ReturnNone
  end.
Proof.
  intros Hn w' h. subst w' h. unfold add_ble_device, add_device.
  cbn [MammotionMixedDeviceManager_init add_ble add_cloud name]. rewrite Hn.
  unfold send_command, send_command_with_args, start_sync, start_map_sync, get_device_by_name,
    get_device. cbn [set_devices devices snd]. rewrite lookup_insert_eq.
  destruct pref; cbn; auto.
Qed.

Lemma new_radio_device_routing_witness :
  send_command (add_ble_device (Some luba1_ble) BLUETOOTH empty_world).2 "Luba-1" "get_report_cfg"
  = Ok (ReturnAwait (BleCommand {| ble_device := luba1_ble |} "get_report_cfg" [])).
Proof.
  destruct (new_radio_device_routing luba1_ble BLUETOOTH empty_world "get_report_cfg" [] 3)
    as (H & _); [reflexivity|exact H].
Defined.

End MammotionMore.
